(** * Image-Forensic: the React front end of the forensic report

    A shallow embedding of the TypeScript sources

    - [src/hooks/useForensics.ts]       ([analyzeImage], [transformPythonResponse],
                                         [resetAnalysis], [getApiBaseUrl]),
    - [src/components/ImageUpload.tsx]  ([validateFile], [handleFiles],
                                         [handleDrag], [handleDrop]),
    - [src/components/ForensicsReport.tsx] ([performReverseSearch],
                                         [formatExpiryTime], [getApiBaseUrl],
                                         the tabs and the search buttons),
    - [src/App.tsx]                     (the two screens, the session badge),
    - [src/components/panels/*.tsx]     (what the five panels compute from
                                         their slot of the report),
    - [src/components/ImagePreview.tsx] (the zoom and rotate buttons),
    - [update-vite-config.js]           (the host name of the tunnel),
    - [src/types/forensics.ts]          (the [ForensicsResults] interface),

    together with the fragment of the JavaScript run time these functions
    rely on: dynamically typed JSON values, truthiness, [||], optional
    chaining, property reads that raise [TypeError] on [null]/[undefined],
    string conversion, [parseInt], [Number.prototype.toFixed].

    The Python back end ([/api/v1/analyze], [/api/v1/reverse/{engine}]) is
    not part of the sources: what the front end receives from it is an
    input of the model. *)

From Stdlib Require Import ZArith QArith Lqa Ascii String DecimalString DecimalN.
From stdpp Require Import gmap strings list fin_maps.

Set Warnings "-register-all".

(* ===================================================================== *)
(** * The JavaScript values the code manipulates *)
(* ===================================================================== *)

Module Js.

(** A JavaScript number.  Finite numbers are exact rationals: the model
    has no rounding to binary64, no overflow and no signed zero. *)
Inductive number :=
| NaN
| Inf (negative : bool)
| Num (q : Q).

(** What [JSON.parse] produces, plus [undefined] (a missing property). *)
Inductive JsVal :=
| JUndefined
| JNull
| JBool (b : bool)
| JNum (n : number)
| JStr (s : string)
| JArr (l : list JsVal)
| JObj (m : gmap string JsVal).

Definition JInt (z : Z) : JsVal := JNum (Num (inject_Z z)).
Definition emptyObject : JsVal := JObj ∅.

(** ** Exceptions and the result of an evaluation that may throw *)

Inductive Exn :=
| TypeError                  (* raised by the engine *)
| SyntaxError                (* [response.json()] on a body that is not JSON *)
| NetworkError               (* [fetch] rejected *)
| Error (message : string).  (* [throw new Error(message)] *)

Inductive Result (A : Type) :=
| Ok (a : A)
| Throw (e : Exn).
Arguments Ok {A} a.
Arguments Throw {A} e.

#[export] Instance Result_ret : MRet Result := fun A a => Ok a.
#[export] Instance Result_bind : MBind Result := fun A B f r =>
  match r with
  | Ok a => f a
  | Throw e => Throw e
  end.

Definition is_ok {A} (r : Result A) : bool :=
  match r with Ok _ => true | Throw _ => false end.

(** [arr.map((x, index) => f(index, x))]: the callback runs on the
    elements in order and the first exception aborts the call. *)
Fixpoint mapi_from {A B} (f : nat → A → Result B) (i : nat) (l : list A)
  : Result (list B) :=
  match l with
  | [] => Ok []
  | a :: l' => b ← f i a; bs ← mapi_from f (S i) l'; mret (b :: bs)
  end.

(** ** Truthiness, [||], nullish values *)

Definition number_truthy (n : number) : bool :=
  match n with
  | NaN => false
  | Inf _ => true
  | Num q => negb (Qnum q =? 0)%Z
  end.

Definition truthy (v : JsVal) : bool :=
  match v with
  | JUndefined | JNull => false
  | JBool b => b
  | JNum n => number_truthy n
  | JStr s => negb (String.eqb s "")
  | JArr _ | JObj _ => true
  end.

(** [a || b] when evaluating [b] has no effect. *)
Definition or_else (a b : JsVal) : JsVal := if truthy a then a else b.

Definition nullish (v : JsVal) : bool :=
  match v with
  | JUndefined | JNull => true
  | _ => false
  end.

(** ** Property reads

    The keys the sources read are plain names ([results], [error],
    [Make], ...): none of them is [length], an index, or the name of a
    built-in method, so a primitive or an array has no such property. *)

Definition get (k : string) (v : JsVal) : JsVal :=
  match v with
  | JObj m => default JUndefined (m !! k)
  | _ => JUndefined
  end.

(** [v.k] *)
Definition rd (k : string) (v : JsVal) : Result JsVal :=
  if nullish v then Throw TypeError else Ok (get k v).

(** [v?.k] *)
Definition opt (k : string) (v : JsVal) : JsVal :=
  if nullish v then JUndefined else get k v.

Definition char_at (i : nat) (s : string) : JsVal :=
  match String.get i s with
  | Some c => JStr (String c EmptyString)
  | None => JUndefined
  end.

(** [v?.[i]] for a numeric literal [i] *)
Definition opt_index (i : nat) (v : JsVal) : JsVal :=
  match v with
  | JArr l => default JUndefined (l !! i)
  | JStr s => char_at i s
  | JObj m => default JUndefined (m !! NilZero.string_of_uint (Nat.to_uint i))
  | _ => JUndefined
  end.

(** [Object.keys(v).length] for a value that is not nullish *)
Definition keys_length (v : JsVal) : nat :=
  match v with
  | JObj m => size m
  | JArr l => length l
  | JStr s => String.length s
  | _ => 0
  end.

(** ** Numbers to text *)

Definition string_of_N (n : N) : string :=
  NilZero.string_of_uint (N.to_uint n).

Definition string_of_Z (z : Z) : string :=
  if (z <? 0)%Z then "-" +:+ string_of_N (Z.abs_N z) else string_of_N (Z.abs_N z).

Fixpoint zeros (n : nat) : string :=
  match n with
  | O => ""
  | S n' => String "0" (zeros n')
  end.

Definition digit_char (d : Z) : ascii := ascii_of_nat (48 + Z.to_nat d).

(** The first [fuel] decimals of [r / b], for [0 <= r < b], stopping when
    the expansion ends. *)
Fixpoint decimals (fuel : nat) (r b : Z) : string :=
  match fuel with
  | O => ""
  | S fuel' =>
      if (r =? 0)%Z then ""
      else let d := (10 * r / b)%Z in
           String (digit_char d) (decimals fuel' (10 * r - d * b)%Z b)
  end.

(** The number of zeros between the decimal point and the first non-zero
    decimal of [r / b], for [0 < r < b]. *)
Fixpoint leading_zeros (fuel : nat) (r b : Z) : nat :=
  match fuel with
  | O => O
  | S fuel' => if (b <=? 10 * r)%Z then O else S (leading_zeros fuel' (10 * r)%Z b)
  end.

Fixpoint strip_zeros_rev (s : list ascii) : list ascii :=
  match s with
  | "0"%char :: s' => strip_zeros_rev s'
  | _ => s
  end.

Definition strip_trailing_zeros (s : string) : string :=
  string_of_list_ascii (rev (strip_zeros_rev (rev (list_ascii_of_string s)))).

(** [d.ddd] followed by the exponent, as [Number::toString] writes it. *)
Definition exponent_form (digits : string) (e : Z) : string :=
  match digits with
  | EmptyString => ""
  | String d EmptyString =>
      String d "" +:+ "e" +:+ (if (e <? 0)%Z then "-" else "+") +:+ string_of_N (Z.abs_N e)
  | String d rest =>
      String d "" +:+ "." +:+ rest +:+
      "e" +:+ (if (e <? 0)%Z then "-" else "+") +:+ string_of_N (Z.abs_N e)
  end.

(** [Number::toString] of the positive rational [a / b]: the significant
    digits are those of the exact decimal expansion, at most 17 of them
    (what a binary64 carries). *)
Definition positive_to_string (a b : Z) : string :=
  let i := (a / b)%Z in
  let r := (a mod b)%Z in
  if (0 <? i)%Z then
    let ds := string_of_N (Z.to_N i) in
    let n := String.length ds in
    if (n <=? 21)%nat then
      let fs := decimals (17 - n) r b in
      if String.eqb fs "" then ds else ds +:+ "." +:+ fs
    else exponent_form (strip_trailing_zeros ds) (Z.of_nat n - 1)
  else
    let z := leading_zeros (S (Z.to_nat (Z.log2 b))) r b in
    let fs := decimals (z + 17) r b in
    if (z <? 6)%nat then "0." +:+ fs
    else exponent_form (substring z (String.length fs - z) fs) (- Z.of_nat z - 1).

Definition number_to_string (n : number) : string :=
  match n with
  | NaN => "NaN"
  | Inf false => "Infinity"
  | Inf true => "-Infinity"
  | Num q =>
      let a := Qnum q in
      let b := Zpos (Qden q) in
      if (a =? 0)%Z then "0"
      else if (a <? 0)%Z then "-" +:+ positive_to_string (- a) b
      else positive_to_string a b
  end.

(** [x.toFixed(f)] for a number [x] and [0 <= f <= 100]: round the
    magnitude to [f] decimals, ties upwards, and keep the sign of [x]. *)
Definition toFixed (f : nat) (n : number) : string :=
  match n with
  | Num q =>
      let a := Z.abs (Qnum q) in
      let b := Zpos (Qden q) in
      if (10 ^ 21 * b <=? a)%Z then number_to_string n
      else
        let k := ((2 * a * 10 ^ Z.of_nat f + b) / (2 * b))%Z in
        let m := string_of_N (Z.to_N k) in
        let m := zeros (S f - String.length m) +:+ m in
        let len := String.length m in
        let m := if (f =? 0)%nat then m
                 else substring 0 (len - f) m +:+ "." +:+ substring (len - f) f m in
        if (Qnum q <? 0)%Z then "-" +:+ m else m
  | _ => number_to_string n
  end.

(** ** [ToString] *)

Fixpoint ToString (v : JsVal) : string :=
  match v with
  | JUndefined => "undefined"
  | JNull => "null"
  | JBool true => "true"
  | JBool false => "false"
  | JNum n => number_to_string n
  | JStr s => s
  | JArr l =>
      (* [Array.prototype.join]: [null] and [undefined] print as nothing *)
      (fix join (l : list JsVal) : string :=
         match l with
         | [] => ""
         | x :: l' =>
             (if nullish x then "" else ToString x) +:+
             match l' with
             | [] => ""
             | _ :: _ => "," +:+ join l'
             end
         end) l
  | JObj _ => "[object Object]"
  end.

(** A template literal: the texts of its parts, concatenated. *)
Definition template (parts : list string) : string :=
  foldr String.append "" parts.

(** ** Text to numbers *)

Definition is_space (c : ascii) : bool :=
  let n := nat_of_ascii c in
  (n =? 32)%nat || ((9 <=? n)%nat && (n <=? 13)%nat).

Fixpoint trim_start (s : list ascii) : list ascii :=
  match s with
  | c :: s' => if is_space c then trim_start s' else s
  | [] => []
  end.

Definition trim (s : list ascii) : list ascii :=
  rev (trim_start (rev (trim_start s))).

Definition digit_val (radix : Z) (c : ascii) : option Z :=
  let n := Z.of_nat (nat_of_ascii c) in
  let d := (if (48 <=? n) && (n <=? 57) then n - 48
            else if (97 <=? n) && (n <=? 122) then n - 87
            else if (65 <=? n) && (n <=? 90) then n - 55
            else radix)%Z in
  if (d <? radix)%Z then Some d else None.

(** The longest prefix of digits of the radix, and what follows it. *)
Fixpoint take_digits (radix : Z) (s : list ascii) : list Z * list ascii :=
  match s with
  | c :: s' =>
      match digit_val radix c with
      | Some d => let '(ds, r) := take_digits radix s' in (d :: ds, r)
      | None => ([], s)
      end
  | [] => ([], [])
  end.

Definition digits_value (radix : Z) (ds : list Z) : Z :=
  fold_left (fun acc d => acc * radix + d)%Z ds 0%Z.

(** An optional [+] or [-]: whether the sign is negative, and the rest. *)
Definition take_sign (s : list ascii) : bool * list ascii :=
  match s with
  | "-"%char :: s' => (true, s')
  | "+"%char :: s' => (false, s')
  | _ => (false, s)
  end.

(** [m * 10^e] *)
Definition scale10 (m e : Z) : Q :=
  if (0 <=? e)%Z then inject_Z (m * 10 ^ e) else Qred (m # Z.to_pos (10 ^ (- e))).

Definition all_digits (radix : Z) (s : list ascii) : number :=
  match take_digits radix s with
  | ((_ :: _) as ds, []) => Num (inject_Z (digits_value radix ds))
  | _ => NaN
  end.

(** [StrDecimalLiteral]: sign, digits with an optional fraction, an
    optional exponent, and nothing else. *)
Definition decimal_literal (s : list ascii) : number :=
  let '(neg, s) := take_sign s in
  if String.eqb (string_of_list_ascii s) "Infinity" then Inf neg
  else
    let '(ds1, r1) := take_digits 10 s in
    let '(ds2, r2) := match r1 with
                      | "."%char :: r => take_digits 10 r
                      | _ => ([], r1)
                      end in
    match ds1 ++ ds2 with
    | [] => NaN
    | ds =>
        let m := digits_value 10 ds in
        let m := if neg then (- m)%Z else m in
        let frac := Z.of_nat (length ds2) in
        match r2 with
        | [] => Num (scale10 m (- frac))
        | c :: r =>
            if Ascii.eqb c "e" || Ascii.eqb c "E" then
              let '(eneg, r) := take_sign r in
              match take_digits 10 r with
              | ((_ :: _) as es, []) =>
                  let e := digits_value 10 es in
                  Num (scale10 m ((if eneg then - e else e) - frac)%Z)
              | _ => NaN
              end
            else NaN
        end
    end.

(** [StringToNumber] *)
Definition string_to_number (s : string) : number :=
  match trim (list_ascii_of_string s) with
  | [] => Num 0
  | ("0"%char :: c :: r) as cs =>
      if Ascii.eqb c "x" || Ascii.eqb c "X" then all_digits 16 r
      else if Ascii.eqb c "o" || Ascii.eqb c "O" then all_digits 8 r
      else if Ascii.eqb c "b" || Ascii.eqb c "B" then all_digits 2 r
      else decimal_literal cs
  | cs => decimal_literal cs
  end.

Definition ToNumber (v : JsVal) : number :=
  match v with
  | JUndefined => NaN
  | JNull => Num 0
  | JBool b => if b then Num 1 else Num 0
  | JNum n => n
  | JStr s => string_to_number s
  | JArr _ | JObj _ => string_to_number (ToString v)
  end.

(** [parseInt(v)] without a radix: leading white space, a sign, an
    optional [0x], then the longest run of digits. *)
Definition parseInt (v : JsVal) : number :=
  let '(neg, s) := take_sign (trim_start (list_ascii_of_string (ToString v))) in
  let '(radix, s) := match s with
                     | "0"%char :: c :: r =>
                         if Ascii.eqb c "x" || Ascii.eqb c "X" then (16%Z, r) else (10%Z, s)
                     | _ => (10%Z, s)
                     end in
  match take_digits radix s with
  | ([], _) => NaN
  | (ds, _) => let m := digits_value radix ds in
               Num (inject_Z (if neg then - m else m)%Z)
  end.

(** ** Arithmetic *)

(** [a - b] *)
Definition sub (a b : JsVal) : number :=
  match ToNumber a, ToNumber b with
  | NaN, _ | _, NaN => NaN
  | Inf s, Inf s' => if Bool.eqb s s' then NaN else Inf s
  | Inf s, Num _ => Inf s
  | Num _, Inf s => Inf (negb s)
  | Num x, Num y => Num (Qred (x - y))
  end.

(** [a / d] for integers [a] and [d > 0] *)
Definition div_int (a : Z) (d : positive) : number := Num (Qred (a # d)).

(** ** Method calls on values of unknown type *)

(** [v.toFixed(f)]: only a number has the method. *)
Definition call_toFixed (f : nat) (v : JsVal) : Result string :=
  match v with
  | JNum n => Ok (toFixed f n)
  | _ => Throw TypeError
  end.

(** [v.substring(0, n)]: only a string has the method. *)
Definition call_substring (n : nat) (v : JsVal) : Result string :=
  match v with
  | JStr s => Ok (substring 0 n s)
  | _ => Throw TypeError
  end.

(** [v.map(f)]: only an array has the method. *)
Definition call_map {B} (f : nat → JsVal → Result B) (v : JsVal) : Result (list B) :=
  match v with
  | JArr l => mapi_from f 0 l
  | _ => Throw TypeError
  end.

(** ** Comparisons and products with a numeric literal *)

(** [v > q] for a literal [q]: [v] is converted to a number, and a
    comparison with [NaN] is false. *)
Definition gt_lit (v : JsVal) (q : Q) : bool :=
  match ToNumber v with
  | NaN => false
  | Inf negative => negb negative
  | Num x => negb (Qle_bool x q)
  end.


(** [a * b] *)
Definition num_mul (a b : number) : number :=
  match a, b with
  | NaN, _ | _, NaN => NaN
  | Inf s, Inf s' => Inf (xorb s s')
  | Inf s, Num y | Num y, Inf s =>
      if (Qnum y =? 0)%Z then NaN else Inf (xorb s (Qnum y <? 0)%Z)
  | Num x, Num y => Num (Qred (x * y))
  end.


(** [v * q] for a literal [q] *)
Definition mul_lit (v : JsVal) (q : Q) : number := num_mul (ToNumber v) (Num q).

(** [s.replace(pattern, '')] for a text [pattern] that is not empty: the
    first occurrence is removed. *)
Fixpoint remove_first (pattern s : string) : string :=
  if String.prefix pattern s
  then substring (String.length pattern) (String.length s - String.length pattern) s
  else match s with
       | EmptyString => EmptyString
       | String c s' => String c (remove_first pattern s')
       end.

End Js.


Import Js.

(* ===================================================================== *)
(** * src/types/forensics.ts: the [ForensicsResults] interface

    The fields hold what the code stores in them at run time; where the
    value comes unchecked from the back end it is a [JsVal], whatever the
    interface declares. *)
(* ===================================================================== *)

(** The browser's [File]: [name], [size] in bytes, [type] (declared MIME). *)
Module File.
Record t := { name : string; size : Z; type : string }.
End File.

Module Settings.
Record t := { iso : JsVal; aperture : JsVal; shutterSpeed : JsVal; focalLength : JsVal }.
End Settings.

Module Resolution.
Record t := { x : JsVal; y : JsVal }.
End Resolution.

Module Dimensions.
Record t := { width : number; height : number }.
End Dimensions.

Module Metadata.
Record t := {
  camera : JsVal;
  lens : JsVal;
  settings : Settings.t;
  timestamp : JsVal;
  software : JsVal;
  orientation : JsVal;
  resolution : Resolution.t;
  message : JsVal;
  suggestion : JsVal;
  dimensions : Dimensions.t
}.
End Metadata.

Module Tamper.
Record t := {
  confidence : JsVal;
  compressionArtifacts : bool;
  doubleJpeg : bool;
  analysis : JsVal
}.
End Tamper.

Module AiAnalysis.
Record t := {
  confidence : JsVal;
  isAiGenerated : JsVal;
  indicators : list string;
  analysis : JsVal
}.
End AiAnalysis.

Module BBox.
Record t := { x : JsVal; y : JsVal; width : number; height : number }.
End BBox.

Module Face.
Record t := {
  id : string;
  confidence : JsVal;
  age : JsVal;
  gender : JsVal;
  emotion : JsVal;
  bbox : BBox.t
}.
End Face.

Module FaceAnalysis.
Record t := { count : JsVal; faces : list Face.t; analysis : JsVal }.
End FaceAnalysis.

Module FileInfo.
Record t := {
  filename : string;
  size : string;
  type : string;
  dimensions : Dimensions.t;
  hash : JsVal;
  colorSpace : JsVal;
  bitDepth : Z;
  compression : string
}.
End FileInfo.

Record ForensicsResults := {
  metadata : Metadata.t;
  tamper : Tamper.t;
  aiAnalysis : AiAnalysis.t;
  faceAnalysis : FaceAnalysis.t;
  fileInfo : FileInfo.t;
  imageId : JsVal;
  publicImageUrl : string;
  sessionId : JsVal;
  expiresAt : Z
}.

(** [window.location] *)
Record Location := { hostname : string; origin : string }.

(* ===================================================================== *)
(** * src/hooks/useForensics.ts *)
(* ===================================================================== *)

Module UseForensics.

(** [typeof window !== 'undefined'] is [window = Some _]. *)
Definition getApiBaseUrl (window : option Location) : string :=
  match window with
  | Some location =>
      if String.eqb location.(hostname) "localhost" then "http://localhost:8000"
      else location.(origin)
  | None => "http://localhost:8000"
  end.

(** [v.k1 || v.k2 || ... || dflt] *)
Fixpoint first_truthy (v : JsVal) (keys : list string) (dflt : JsVal) : Result JsVal :=
  match keys with
  | [] => Ok dflt
  | k :: keys' => x ← rd k v; if truthy x then Ok x else first_truthy v keys' dflt
  end.

(** [hasExifData ? (exifData.k1 || ... || 'Unknown') : 'No EXIF data'] *)
Definition exif_field (hasExifData : bool) (exifData : JsVal) (keys : list string)
  : Result JsVal :=
  if hasExifData then first_truthy exifData keys (JStr "Unknown")
  else Ok (JStr "No EXIF data").

(** [hasExifData ? parseInt(exifData.k1 || exifData.k2 || '0') : 0] *)
Definition exif_int (hasExifData : bool) (exifData : JsVal) (keys : list string)
  : Result number :=
  if hasExifData then x ← first_truthy exifData keys (JStr "0"); Ok (parseInt x)
  else Ok (Num 0).

Definition exif_dimensions (hasExifData : bool) (exifData : JsVal) : Result Dimensions.t :=
  width ← exif_int hasExifData exifData ["EXIF ExifImageWidth"; "Image ImageWidth"];
  height ← exif_int hasExifData exifData ["EXIF ExifImageLength"; "Image ImageLength"];
  Ok {| Dimensions.width := width; Dimensions.height := height |}.

(** [results.exif_data || {}] and [hasExifData] *)
Definition exif_of (results : JsVal) : Result (JsVal * bool) :=
  e ← rd "exif_data" results;
  let exifData := or_else e emptyObject in
  hasExifData ← (if (0 <? keys_length exifData)%nat
                 then err ← rd "error" exifData; Ok (negb (truthy err))
                 else Ok false);
  Ok (exifData, hasExifData).

(** The [metadata] property of the returned object *)
Definition metadataSlot (exifData : JsVal) (hasExifData : bool)
    (exifMessage exifSuggestion : JsVal) : Result Metadata.t :=
  camera ← exif_field hasExifData exifData ["Make"; "Image Make"];
  lens ← exif_field hasExifData exifData ["Model"; "Image Model"];
  iso ← exif_field hasExifData exifData ["ISO"; "EXIF ISOSpeedRatings"];
  aperture ← exif_field hasExifData exifData ["FNumber"; "EXIF FNumber"];
  shutterSpeed ← exif_field hasExifData exifData ["ExposureTime"; "EXIF ExposureTime"];
  focalLength ← exif_field hasExifData exifData ["FocalLength"; "EXIF FocalLength"];
  timestamp ← exif_field hasExifData exifData
                ["DateTimeOriginal"; "EXIF DateTimeOriginal"; "DateTime"];
  software ← exif_field hasExifData exifData ["Software"];
  orientation ← exif_field hasExifData exifData ["Image Orientation"];
  rx ← exif_field hasExifData exifData ["Image XResolution"];
  ry ← exif_field hasExifData exifData ["Image YResolution"];
  dimensions ← exif_dimensions hasExifData exifData;
  Ok {| Metadata.camera := camera;
        Metadata.lens := lens;
        Metadata.settings :=
          {| Settings.iso := iso;
             Settings.aperture := aperture;
             Settings.shutterSpeed := shutterSpeed;
             Settings.focalLength := focalLength |};
        Metadata.timestamp := timestamp;
        Metadata.software := software;
        Metadata.orientation := orientation;
        Metadata.resolution := {| Resolution.x := rx; Resolution.y := ry |};
        Metadata.message := exifMessage;
        Metadata.suggestion := exifSuggestion;
        Metadata.dimensions := dimensions |}.

(** [results.a?.k] *)
Definition path2 (results : JsVal) (a k : string) : Result JsVal :=
  entry ← rd a results; Ok (opt k entry).

(** [results.a?.b?.k] *)
Definition path3 (results : JsVal) (a b k : string) : Result JsVal :=
  entry ← rd a results; Ok (opt k (opt b entry)).

(** The [tamper] property *)
Definition tamperSlot (results : JsVal) : Result Tamper.t :=
  score ← path2 results "tamper_detection" "integrity_score";
  let confidence := or_else score (JInt 0) in
  err ← path2 results "tamper_detection" "error";
  analysis ← (if truthy err then Ok err
              else score ← path2 results "tamper_detection" "integrity_score";
                   fixed ← call_toFixed 3 (or_else score (JInt 0));
                   Ok (JStr (template
                     ["Tamper detection completed. Integrity score: "; fixed])));
  Ok {| Tamper.confidence := confidence;
        Tamper.compressionArtifacts := false;
        Tamper.doubleJpeg := false;
        Tamper.analysis := analysis |}.

(** The [aiAnalysis] property *)
Definition aiSlot (results : JsVal) : Result AiAnalysis.t :=
  let ai := path3 results "ai_detection" "ai_detection" in
  score ← ai "confidence_score";
  let confidence := or_else score (JInt 0) in
  flag ← ai "is_ai_generated";
  let isAiGenerated := or_else flag (JBool false) in
  err ← ai "error";
  indicators ← (if truthy err then Ok ["Analysis failed"]
                else flag ← ai "is_ai_generated";
                     Ok [if truthy flag then "AI generated content detected"
                         else "Natural image detected"]);
  err ← ai "error";
  analysis ← (if truthy err then Ok err
              else flag ← ai "is_ai_generated";
                   score ← ai "confidence_score";
                   fixed ← call_toFixed 3 (or_else score (JInt 0));
                   Ok (JStr (template
                     ["AI detection completed. ";
                      if truthy flag then "AI generated" else "Natural";
                      " image with "; fixed; " confidence."])));
  Ok {| AiAnalysis.confidence := confidence;
        AiAnalysis.isAiGenerated := isAiGenerated;
        AiAnalysis.indicators := indicators;
        AiAnalysis.analysis := analysis |}.

(** The callback of [faces.map]; [console.log(..., face.emotion)] is the
    first read of [face]. *)
Definition faceEntry (index : nat) (face : JsVal) : Result Face.t :=
  (* [face.bounding_box?.[i] || 0] *)
  let bounding_box i := b ← rd "bounding_box" face; Ok (or_else (opt_index i b) (JInt 0)) in
  _ ← rd "emotion" face;
  confidence ← rd "confidence" face;
  age ← rd "age" face;
  gender ← rd "gender" face;
  emotion ← rd "emotion" face;
  x ← bounding_box 0;
  y ← bounding_box 1;
  x2 ← bounding_box 2;
  x0 ← bounding_box 0;
  y3 ← bounding_box 3;
  y1 ← bounding_box 1;
  Ok {| Face.id := template ["face_"; string_of_N (N.of_nat (index + 1))];
        Face.confidence := or_else confidence (JInt 0);
        Face.age := or_else age (JStr "Unknown");
        Face.gender := or_else gender (JStr "Unknown");
        Face.emotion := or_else (opt "emotion" emotion) (JStr "Unknown");
        Face.bbox := {| BBox.x := x;
                        BBox.y := y;
                        BBox.width := sub x2 x0;
                        BBox.height := sub y3 y1 |} |}.

(** The [faceAnalysis] property *)
Definition faceSlot (results : JsVal) : Result FaceAnalysis.t :=
  let fd := path3 results "face_detection" "face_detection" in
  n ← fd "count";
  let count := or_else n (JInt 0) in
  fs ← fd "faces";
  faces ← (if nullish fs then Ok [] else call_map faceEntry fs);
  err ← fd "error";
  analysis ← (if truthy err then Ok err
              else n ← fd "count";
                   Ok (JStr (template
                     ["Face detection completed. Found ";
                      ToString (or_else n (JInt 0)); " face(s)."])));
  Ok {| FaceAnalysis.count := count;
        FaceAnalysis.faces := faces;
        FaceAnalysis.analysis := analysis |}.

(** The [fileInfo] property *)
Definition fileInfoSlot (exifData : JsVal) (hasExifData : bool)
    (pythonData : JsVal) (file : File.t) : Result FileInfo.t :=
  dimensions ← exif_dimensions hasExifData exifData;
  image_id ← rd "image_id" pythonData;
  colorSpace ← exif_field hasExifData exifData ["EXIF ColorSpace"];
  Ok {| FileInfo.filename := file.(File.name);
        FileInfo.size := toFixed 2 (div_int file.(File.size) 1024) +:+ " KB";
        FileInfo.type := file.(File.type);
        FileInfo.dimensions := dimensions;
        FileInfo.hash := or_else image_id (JStr "unknown");
        FileInfo.colorSpace := colorSpace;
        FileInfo.bitDepth := 8;
        FileInfo.compression := "Unknown" |}.

(** [transformPythonResponse(pythonData, file)], in the environment it
    reads: [window], the clock [Date.now()] and [sessionIdRef.current]. *)
Definition transformPythonResponse
    (window : option Location) (now : Z) (sessionIdRef : JsVal)
    (pythonData : JsVal) (file : File.t) : Result ForensicsResults :=
  r ← rd "results" pythonData;
  let results := or_else r emptyObject in
  '(exifData, hasExifData) ← exif_of results;
  exifMessage ← rd "message" results;
  exifSuggestion ← rd "suggestion" results;
  metadata ← metadataSlot exifData hasExifData exifMessage exifSuggestion;
  tamper ← tamperSlot results;
  aiAnalysis ← aiSlot results;
  faceAnalysis ← faceSlot results;
  fileInfo ← fileInfoSlot exifData hasExifData pythonData file;
  image_id ← rd "image_id" pythonData;
  image_id' ← rd "image_id" pythonData;
  session_id ← rd "session_id" pythonData;
  Ok {| metadata := metadata;
        tamper := tamper;
        aiAnalysis := aiAnalysis;
        faceAnalysis := faceAnalysis;
        fileInfo := fileInfo;
        imageId := or_else image_id (JStr "unknown");
        publicImageUrl :=
          template [getApiBaseUrl window; "/image/"; ToString image_id'];
        sessionId := or_else session_id sessionIdRef;
        expiresAt := (now + 60 * 60 * 1000)%Z |}.

(** ** The state of the hook: three [useState] cells and one [useRef] *)

Record HookState := {
  isAnalyzing : bool;
  results : option ForensicsResults;      (* [None] is [null] *)
  uploadedImage : option File.t;
  sessionIdRef : JsVal                    (* [sessionIdRef.current] *)
}.

Definition initialState : HookState :=
  {| isAnalyzing := false; results := None; uploadedImage := None;
     sessionIdRef := JNull |}.

Definition setIsAnalyzing (b : bool) (st : HookState) : HookState :=
  {| isAnalyzing := b; results := st.(results);
     uploadedImage := st.(uploadedImage); sessionIdRef := st.(sessionIdRef) |}.

Definition setResults (r : option ForensicsResults) (st : HookState) : HookState :=
  {| isAnalyzing := st.(isAnalyzing); results := r;
     uploadedImage := st.(uploadedImage); sessionIdRef := st.(sessionIdRef) |}.

Definition setUploadedImage (f : option File.t) (st : HookState) : HookState :=
  {| isAnalyzing := st.(isAnalyzing); results := st.(results);
     uploadedImage := f; sessionIdRef := st.(sessionIdRef) |}.

Definition setSessionIdRef (v : JsVal) (st : HookState) : HookState :=
  {| isAnalyzing := st.(isAnalyzing); results := st.(results);
     uploadedImage := st.(uploadedImage); sessionIdRef := v |}.

(** ** What [fetch] answers *)

Record Response := {
  ok : bool;
  status : Z;
  statusText : string;
  body : option JsVal       (* [None]: the body is not JSON *)
}.

Inductive FetchOutcome :=
| Rejected                      (* the promise rejects: no connection *)
| Responded (response : Response).

(** [await response.json()] *)
Definition json (response : Response) : Result JsVal :=
  match response.(body) with
  | Some v => Ok v
  | None => Throw SyntaxError
  end.

(** [await fetch(...)] *)
Definition await_fetch (outcome : FetchOutcome) : Result Response :=
  match outcome with
  | Rejected => Throw NetworkError
  | Responded response => Ok response
  end.

(** ** Statements that update the hook's state and may throw *)

Definition M (A : Type) : Type := HookState → HookState * Result A.

#[export] Instance M_ret : MRet M := fun A a st => (st, Ok a).
#[export] Instance M_bind : MBind M := fun A B f m st =>
  match m st with
  | (st', Ok a) => f a st'
  | (st', Throw e) => (st', Throw e)
  end.

Definition lift {A} (r : Result A) : M A := fun st => (st, r).
Definition update (f : HookState → HookState) : M unit := fun st => (f st, Ok tt).
Definition read {A} (f : HookState → A) : M A := fun st => (st, Ok (f st)).

(** The [try] block of [analyzeImage] *)
Definition analyzeImage_try (window : option Location) (now : Z)
    (outcome : FetchOutcome) (file : File.t) : M unit :=
  response ← lift (await_fetch outcome);
  _ ← (if negb response.(ok) then
         (* [await response.json().catch(() => ({}))] *)
         let errorData := match json response with
                          | Ok v => v
                          | Throw _ => emptyObject
                          end in
         detail ← lift (rd "detail" errorData);
         message ← (if truthy detail then mret detail
                    else err ← lift (rd "error" errorData);
                         if truthy err then mret err
                         else mret (JStr (template
                                ["HTTP "; string_of_Z response.(status); ": ";
                                 response.(statusText)])));
         lift (Throw (Error (ToString message)))
       else mret tt);
  data ← lift (json response);
  session_id ← lift (rd "session_id" data);
  _ ← (if truthy session_id then
         session_id ← lift (rd "session_id" data);
         _ ← update (setSessionIdRef session_id);
         session_id ← lift (rd "session_id" data);
         _ ← lift (call_substring 8 session_id);
         mret tt
       else mret tt);
  ref ← read sessionIdRef;
  transformedResults ← lift (transformPythonResponse window now ref data file);
  update (setResults (Some transformedResults)).

(** [analyzeImage(file)]: the final state, and the error the [catch]
    block reported with [alert], if any. *)
Definition analyzeImage (window : option Location) (now : Z)
    (outcome : FetchOutcome) (file : File.t) (st : HookState)
  : HookState * option Exn :=
  let st := setIsAnalyzing true st in
  let st := setUploadedImage (Some file) st in
  let '(st, alerted) :=
    match analyzeImage_try window now outcome file st with
    | (st, Ok _) => (st, None)
    | (st, Throw error) => (setResults None st, Some error)
    end in
  (setIsAnalyzing false st, alerted).

Definition resetAnalysis (st : HookState) : HookState :=
  let st := setResults None st in
  let st := setUploadedImage None st in
  setIsAnalyzing false st.

(** What the hook returns to the component *)
Definition hook_sessionId (st : HookState) : JsVal := st.(sessionIdRef).

End UseForensics.

(* ===================================================================== *)
(** * src/components/ImageUpload.tsx *)
(* ===================================================================== *)

Module ImageUpload.

(** The component's two [useState] cells *)
Record State := { dragActive : bool; error : option string }.

Definition setError (e : option string) (st : State) : State :=
  {| dragActive := st.(dragActive); error := e |}.

(** [None] is [null]: the file is accepted. *)
Definition validateFile (file : File.t) : option string :=
  if negb (String.prefix "image/" file.(File.type)) then
    Some "Please upload a valid image file"
  else if (10 * 1024 * 1024 <? file.(File.size))%Z then
    Some "File size must be less than 10MB"
  else None.

(** [if (validationError)]: [null] and the empty string are falsy. *)
Definition is_error (validationError : option string) : bool :=
  match validationError with
  | Some e => negb (String.eqb e "")
  | None => false
  end.

(** [handleFiles(files)]: the new state, and the file handed to
    [onImageUpload] when the call is made. *)
Definition handleFiles (files : option (list File.t)) (st : State)
  : State * option File.t :=
  match files with
  | None | Some [] => (st, None)
  | Some (file :: _) =>
      let validationError := validateFile file in
      if is_error validationError then (setError validationError st, None)
      else (setError None st, Some file)
  end.

Definition setDragActive (b : bool) (st : State) : State :=
  {| dragActive := b; error := st.(error) |}.

(** [handleDrag(e)], on the type of the event *)
Definition handleDrag (type : string) (st : State) : State :=
  if String.eqb type "dragenter" || String.eqb type "dragover" then setDragActive true st
  else if String.eqb type "dragleave" then setDragActive false st
  else st.

(** [handleDrop(e)], on [e.dataTransfer.files] *)
Definition handleDrop (files : option (list File.t)) (st : State)
  : State * option File.t :=
  handleFiles files (setDragActive false st).

(** [handleFileInput(e)], on [e.target.files] *)
Definition handleFileInput (files : option (list File.t)) (st : State)
  : State * option File.t :=
  handleFiles files st.

End ImageUpload.

(* ===================================================================== *)
(** * src/App.tsx: [<ImageUpload onImageUpload={analyzeImage} .../>] *)
(* ===================================================================== *)

Module App.

(** What the application does with a file list dropped on the upload
    area: [fetched] tells whether the request to [/api/v1/analyze] was
    issued. *)
Record Outcome := {
  upload : ImageUpload.State;
  hook : UseForensics.HookState;
  fetched : bool
}.

Definition drop (window : option Location) (now : Z)
    (outcome : UseForensics.FetchOutcome) (files : option (list File.t))
    (up : ImageUpload.State) (st : UseForensics.HookState) : Outcome :=
  match ImageUpload.handleFiles files up with
  | (up', Some file) =>
      {| upload := up';
         hook := fst (UseForensics.analyzeImage window now outcome file st);
         fetched := true |}
  | (up', None) => {| upload := up'; hook := st; fetched := false |}
  end.



(** The session badge of the header,
    [sessionId && <span>Session: {sessionId.substring(0, 8)}...</span>]:
    its text, [None] when it is not rendered. *)
Definition session_badge (sessionId : JsVal) : Result (option string) :=
  if truthy sessionId
  then s ← call_substring 8 sessionId; Ok (Some (template ["Session: "; s; "..."]))
  else Ok None.

(** What the user does with the hook *)
Inductive Action :=
| Analyze (window : option Location) (now : Z)
    (outcome : UseForensics.FetchOutcome) (file : File.t)
| Reset.

Definition act (a : Action) (st : UseForensics.HookState) : UseForensics.HookState :=
  match a with
  | Analyze window now outcome file =>
      fst (UseForensics.analyzeImage window now outcome file st)
  | Reset => UseForensics.resetAnalysis st
  end.

Definition run (actions : list Action) (st : UseForensics.HookState)
  : UseForensics.HookState :=
  fold_left (λ st a, act a st) actions st.

End App.

(* ===================================================================== *)
(** * src/components/ForensicsReport.tsx *)
(* ===================================================================== *)

Module ForensicsReport.

(** [engine: 'google' | 'bing' | 'yandex' | 'tineye'] *)
Inductive Engine := google | bing | yandex | tineye.

(** The text of an engine, as [`${engine}`] prints it *)
Definition engine_name (engine : Engine) : string :=
  match engine with
  | google => "google"
  | bing => "bing"
  | yandex => "yandex"
  | tineye => "tineye"
  end.

Definition getApiBaseUrl (window : Location) : string :=
  if String.eqb window.(hostname) "localhost" then "http://localhost:8000"
  else window.(origin).

Definition fallbackUrls (engine : Engine) : string :=
  match engine with
  | google => "https://www.google.com/imghp?hl=en&tab=wi&authuser=0&ogbl"
  | bing => "https://www.bing.com/images/search?view=detailv2&iss=sbi&form=SBIVSP"
  | yandex => "https://yandex.com/images/"
  | tineye => "https://tineye.com/"
  end.

(** What the browser is asked to do *)
Inductive Alert :=
| PopupBlockedCopied (search_url : JsVal)
| PopupBlockedVisit (url : string)
| SearchFailed (engine : Engine) (error : Exn).

Inductive Effect :=
| Fetch (url : string)              (* [fetch(url, {method: 'GET', ...})] *)
| Open (url : JsVal)                (* [window.open(url, '_blank', ...)] *)
| ClipboardWrite (text : JsVal)
| AlertBox (alert : Alert).

(** The props and the browser around a call *)
Record Env := {
  window : Location;
  results : option ForensicsResults;
  sessionId : JsVal;
  popups : bool;                          (* [window.open] returns a window *)
  answer : UseForensics.FetchOutcome      (* what the back end answers *)
}.

(** [results?.imageId] *)
Definition results_imageId (results : option ForensicsResults) : JsVal :=
  match results with
  | Some r => r.(imageId)
  | None => JUndefined
  end.

(** The address of the request to the reverse-search endpoint *)
Definition reverse_url (window : Location) (engine : Engine)
    (imageId sessionId : JsVal) : string :=
  template [getApiBaseUrl window; "/api/v1/reverse/"; engine_name engine;
            "?image_id="; ToString imageId; "&session_id="; ToString sessionId].

(** The [try] block: the effects so far, and how the block ends *)
Definition performReverseSearch_try (env : Env) (engine : Engine)
  : list Effect * Result unit :=
  if truthy (results_imageId env.(results)) && truthy env.(sessionId) then
    let request :=
      Fetch (reverse_url env.(window) engine (results_imageId env.(results))
               env.(sessionId)) in
    match UseForensics.await_fetch env.(answer) with
    | Throw e => ([request], Throw e)
    | Ok response =>
        if response.(UseForensics.ok) then
          match data ← UseForensics.json response; rd "search_url" data with
          | Throw e => ([request], Throw e)
          | Ok search_url =>
              if env.(popups) then ([request; Open search_url], Ok tt)
              else ([request; Open search_url; ClipboardWrite search_url;
                     AlertBox (PopupBlockedCopied search_url)], Ok tt)
          end
        else
          ([request],
           errorData ← UseForensics.json response;
           detail ← rd "detail" errorData;
           Throw (Error (ToString (or_else detail (JStr (template
             ["Failed to generate "; engine_name engine; " search URL"]))))))
    end
  else
    if env.(popups) then ([Open (JStr (fallbackUrls engine))], Ok tt)
    else ([Open (JStr (fallbackUrls engine));
           AlertBox (PopupBlockedVisit (fallbackUrls engine))], Ok tt).

(** [performReverseSearch(engine)]: the final [searchLoading] and the
    effects, in order. *)
Definition performReverseSearch (env : Env) (engine : Engine)
  : option Engine * list Effect :=
  let searchLoading := Some engine in
  let effects :=
    match performReverseSearch_try env engine with
    | (effects, Ok _) => effects
    | (effects, Throw error) => effects ++ [AlertBox (SearchFailed engine error)]
    end in
  let searchLoading : option Engine := None in
  (searchLoading, effects).

Definition formatExpiryTime (now : Z) (expiresAt : Z) : string :=
  let timeLeft := (expiresAt - now)%Z in
  if (timeLeft <=? 0)%Z then "Expired"
  else
    let minutes := (timeLeft / (1000 * 60))%Z in
    let hours := (minutes / 60)%Z in
    if (0 <? hours)%Z then
      template [string_of_Z hours; "h "; string_of_Z (minutes mod 60); "m remaining"]
    else template [string_of_Z minutes; "m remaining"].



(** [disabled={searchLoading === engine || !results?.imageId}] *)
Definition search_disabled (searchLoading : option Engine)
    (results : option ForensicsResults) (engine : Engine) : bool :=
  match searchLoading with
  | Some loading => String.eqb (engine_name loading) (engine_name engine)
  | None => false
  end || negb (truthy (results_imageId results)).

(** The badge of the reverse-search section:
    [results?.imageId && sessionId ? 'READY' : 'PROCESSING'] *)
Definition search_badge (results : option ForensicsResults) (sessionId : JsVal) : string :=
  if truthy (results_imageId results) && truthy sessionId then "READY" else "PROCESSING".

End ForensicsReport.

(* ===================================================================== *)
(** * The reverse-search endpoint of the back end *)
(* ===================================================================== *)

Module ReverseSearch.

Import ForensicsReport.

(** Modelled from the spec: a session of the back end's session store
    (section 3), [{session_id, image_id, created_at, expires_at}]; the
    store itself is not in the sources. *)
Record Session := {
  session_id : string;
  image_id : string;
  created_at : Z;
  expires_at : Z
}.

(** Modelled from the spec: "a session is live iff [now < expires_at]". *)
Definition live (now : Z) (s : Session) : bool := (now <? s.(expires_at))%Z.

(** Modelled from the spec: the errors of [build] (section 4.4). *)
Inductive BuildError :=
| UnsupportedEngine
| SessionExpiredOrInvalid.

(** Modelled from the spec: "validates [engine] is one of a fixed
    enumerated set {google, bing, yandex, tineye}". *)
Definition parse_engine (name : string) : option Engine :=
  if String.eqb name "google" then Some google
  else if String.eqb name "bing" then Some bing
  else if String.eqb name "yandex" then Some yandex
  else if String.eqb name "tineye" then Some tineye
  else None.

(** Modelled from the spec: the deployment's configuration, "a stable
    per-deployment base URL" and the table "engine -> template"; the
    templates themselves are "a fixed external contract" and stay
    abstract. *)
Record Config := {
  base_url : string;
  search_template : Engine → string → string
}.

(** Modelled from the spec: the public address of an image, the "base URL
    joined with [image_id]". *)
Definition public_image_url (cfg : Config) (image_id : string) : string :=
  cfg.(base_url) +:+ image_id.

(** Modelled from the spec: [build(engine, image_id, session_id)], the
    handler of [GET /reverse/{engine}] that [performReverseSearch] calls
    and whose code is not in the sources (section 4.4).  It reads the
    session store and returns it as it found it. *)
Definition build (cfg : Config) (now : Z) (engine image_id session_id : string)
    (store : gmap string Session)
  : gmap string Session * (BuildError + string) :=
  match parse_engine engine with
  | None => (store, inl UnsupportedEngine)
  | Some e =>
      match store !! session_id with
      | Some s =>
          if String.eqb s.(ReverseSearch.image_id) image_id && live now s
          then (store, inr (cfg.(search_template) e (public_image_url cfg image_id)))
          else (store, inl SessionExpiredOrInvalid)
      | None => (store, inl SessionExpiredOrInvalid)
      end
  end.

End ReverseSearch.


(* ===================================================================== *)
(** * The panels of the report *)
(* ===================================================================== *)

(** The icons of [lucide-react] the panels choose between *)
Inductive Icon := AlertTriangle | Info | CheckCircle.

(** ** components/panels/TamperPanel.tsx *)

Module TamperPanel.

Definition getConfidenceColor (confidence : JsVal) : string :=
  if gt_lit confidence (7 # 10) then "text-red-400"
  else if gt_lit confidence (4 # 10) then "text-yellow-400"
  else "text-green-400".

Definition getConfidenceIcon (confidence : JsVal) : Icon :=
  if gt_lit confidence (7 # 10) then AlertTriangle
  else if gt_lit confidence (4 # 10) then Info
  else CheckCircle.

Definition getConfidenceText (confidence : JsVal) : string :=
  if gt_lit confidence (7 # 10) then "High likelihood of tampering"
  else if gt_lit confidence (4 # 10) then "Possible signs of modification"
  else "Low probability of tampering".

(** [{(data.confidence * 100).toFixed(1)}%] *)
Definition percent (data : Tamper.t) : string :=
  template [toFixed 1 (mul_lit data.(Tamper.confidence) 100); "%"].

End TamperPanel.

(** ** components/panels/AIPanel.tsx *)

Module AIPanel.

Definition getConfidenceColor (confidence isAI : JsVal) : string :=
  if truthy isAI && gt_lit confidence (7 # 10) then "text-red-400"
  else if truthy isAI && gt_lit confidence (4 # 10) then "text-yellow-400"
  else "text-green-400".

Definition getConfidenceIcon (confidence isAI : JsVal) : Icon :=
  if truthy isAI && gt_lit confidence (7 # 10) then AlertTriangle
  else if truthy isAI && gt_lit confidence (4 # 10) then Info
  else CheckCircle.

Definition getConfidenceText (confidence isAI : JsVal) : string :=
  if truthy isAI then
    if gt_lit confidence (7 # 10) then "High confidence AI-generated"
    else if gt_lit confidence (4 # 10) then "Possibly AI-generated"
    else "Low confidence AI-generated"
  else "Likely authentic photograph".

(** [{(data.confidence * 100).toFixed(1)}%] *)
Definition percent (data : AiAnalysis.t) : string :=
  template [toFixed 1 (mul_lit data.(AiAnalysis.confidence) 100); "%"].

End AIPanel.

(** ** components/panels/FacePanel.tsx *)

Module FacePanel.

Definition getConfidenceColor (confidence : JsVal) : string :=
  if gt_lit confidence (8 # 10) then "text-green-400"
  else if gt_lit confidence (6 # 10) then "text-yellow-400"
  else "text-red-400".





End FacePanel.

(** ** components/panels/FileInfoPanel.tsx *)

Module FileInfoPanel.





(** [data.type === 'image/jpeg' ? 'Lossy' : 'Lossless'] *)
Definition quality (data : FileInfo.t) : string :=
  if String.eqb data.(FileInfo.type) "image/jpeg" then "Lossy" else "Lossless".

End FileInfoPanel.

(** ** components/panels/MetadataPanel.tsx *)

Module MetadataPanel.

(** The object that [transformPythonResponse] stores under [metadata],
    as the panel receives it in [data]: the ten properties of the object
    literal, present even when their value is [undefined]. *)
Definition data_of (m : Metadata.t) : JsVal :=
  JObj (list_to_map [
    ("camera", m.(Metadata.camera));
    ("lens", m.(Metadata.lens));
    ("settings", JObj (list_to_map [
       ("iso", m.(Metadata.settings).(Settings.iso));
       ("aperture", m.(Metadata.settings).(Settings.aperture));
       ("shutterSpeed", m.(Metadata.settings).(Settings.shutterSpeed));
       ("focalLength", m.(Metadata.settings).(Settings.focalLength)) ]));
    ("timestamp", m.(Metadata.timestamp));
    ("software", m.(Metadata.software));
    ("orientation", m.(Metadata.orientation));
    ("resolution", JObj (list_to_map [
       ("x", m.(Metadata.resolution).(Resolution.x));
       ("y", m.(Metadata.resolution).(Resolution.y)) ]));
    ("message", m.(Metadata.message));
    ("suggestion", m.(Metadata.suggestion));
    ("dimensions", JObj (list_to_map [
       ("width", JNum m.(Metadata.dimensions).(Dimensions.width));
       ("height", JNum m.(Metadata.dimensions).(Dimensions.height)) ])) ]).

(** [data.gps?.latitude && data.gps?.longitude]: the Location group and
    the map button are rendered. *)
Definition location_shown (data : JsVal) : Result bool :=
  gps ← rd "gps" data;
  if truthy (opt "latitude" gps)
  then gps ← rd "gps" data; Ok (truthy (opt "longitude" gps))
  else Ok false.

(** [Object.keys(data).length === 0 ||
     (Object.keys(data).length <= 2 && data.message)]: the notice
    "No EXIF metadata found in this image", with [data.message] and
    [data.suggestion], is rendered. *)
Definition notice_shown (data : JsVal) : Result bool :=
  if nullish data then Throw TypeError
  else if (keys_length data =? 0)%nat then Ok true
  else if (keys_length data <=? 2)%nat
       then message ← rd "message" data; Ok (truthy message)
       else Ok false.



End MetadataPanel.

(** ** components/ImagePreview.tsx *)

Module ImagePreview.

(** The two [useState] cells; the zoom moves in quarters, which are exact
    in binary64. *)
Record State := { zoom : Q; rotation : Z }.

Definition initial : State := {| zoom := 1; rotation := 0 |}.

(** The three buttons *)
Inductive Click := ZoomOut | ZoomIn | Rotate.

Definition Qmax (a b : Q) : Q := if Qle_bool a b then b else a.
Definition Qmin (a b : Q) : Q := if Qle_bool a b then a else b.

Definition click (c : Click) (st : State) : State :=
  match c with
  | ZoomOut => {| zoom := Qmax (1 # 2) (st.(zoom) - (1 # 4)); rotation := st.(rotation) |}
  | ZoomIn => {| zoom := Qmin 3 (st.(zoom) + (1 # 4)); rotation := st.(rotation) |}
  | Rotate => {| zoom := st.(zoom); rotation := (st.(rotation) + 90)%Z |}
  end.

Definition clicks (cs : list Click) (st : State) : State :=
  fold_left (λ st c, click c st) cs st.

End ImagePreview.

(* ===================================================================== *)
(** * update-vite-config.js *)
(* ===================================================================== *)

Module UpdateViteConfig.

(** [cloudflareUrl.replace('https://', '').replace('http://', '')] *)
Definition hostname (cloudflareUrl : string) : string :=
  remove_first "http://" (remove_first "https://" cloudflareUrl).

End UpdateViteConfig.

(* ===================================================================== *)
(** * The vocabulary of the properties *)
(* ===================================================================== *)

Import UseForensics.

(** A field that holds a value: neither [undefined] nor [null]. *)
Definition present (v : JsVal) : Prop := nullish v = false.

Definition is_number (v : JsVal) : bool :=
  match v with
  | JNum _ => true
  | _ => false
  end.

Definition is_boolean (v : JsVal) : bool :=
  match v with
  | JBool _ => true
  | _ => false
  end.

(** A number of the closed interval [[0,1]] *)
Definition in_unit_interval (v : JsVal) : Prop :=
  ∃ q : Q, v = JNum (Num q) ∧ (0 <= q)%Q ∧ (q <= 1)%Q.

(** The entries of [results] that the slots are computed from *)
Definition tamper_entry (results : JsVal) : JsVal :=
  get "tamper_detection" results.
Definition ai_entry (results : JsVal) : JsVal :=
  opt "ai_detection" (get "ai_detection" results).
Definition face_entry (results : JsVal) : JsVal :=
  opt "face_detection" (get "face_detection" results).

(** The entry of a scoring analyzer can be rendered: it carries an
    error, or its score is a number, or it has no (truthy) score. *)
Definition score_ok (entry : JsVal) (key : string) : bool :=
  truthy (opt "error" entry) || is_number (or_else (opt key entry) (JInt 0)).

(** The face entry can be rendered: no list of faces, or an array of
    faces none of which is [null]. *)
Definition faces_ok (entry : JsVal) : bool :=
  match opt "faces" entry with
  | JUndefined | JNull => true
  | JArr l => forallb (λ face, negb (nullish face)) l
  | _ => false
  end.

(** The faces the back end lists *)
Definition backend_faces (entry : JsVal) : list JsVal :=
  match opt "faces" entry with
  | JArr l => l
  | _ => []
  end.


Definition tamper_populated (t : Tamper.t) : Prop :=
  present t.(Tamper.confidence) ∧ truthy t.(Tamper.analysis) = true.

Definition ai_populated (a : AiAnalysis.t) : Prop :=
  present a.(AiAnalysis.confidence) ∧ present a.(AiAnalysis.isAiGenerated) ∧
  length a.(AiAnalysis.indicators) = 1 ∧ truthy a.(AiAnalysis.analysis) = true.

Definition face_populated (f : FaceAnalysis.t) : Prop :=
  present f.(FaceAnalysis.count) ∧ truthy f.(FaceAnalysis.analysis) = true.














(** [pythonData.results || {}] *)
Definition results_of (pythonData : JsVal) : JsVal :=
  or_else (get "results" pythonData) emptyObject.

(** [results.exif_data || {}] and [hasExifData] *)
Definition exifData_of (results : JsVal) : JsVal :=
  or_else (get "exif_data" results) emptyObject.
Definition hasExifData_of (results : JsVal) : bool :=
  (0 <? keys_length (exifData_of results))%nat
  && negb (truthy (get "error" (exifData_of results))).

(** The ceiling of [validateFile], in bytes *)
Definition size_ceiling : Z := 10 * 1024 * 1024.

(** Where [sessionIdRef.current] ends up after [analyzeImage]: the
    [session_id] of a parsed OK response when it is truthy, the previous
    value otherwise. *)
Definition session_after (outcome : FetchOutcome) (previous : JsVal) : JsVal :=
  match outcome with
  | Responded {| ok := true; body := Some data |} =>
      if truthy (get "session_id" data) then get "session_id" data else previous
  | _ => previous
  end.

(** The request failed: no answer, a status that is not OK, or a body
    that is not JSON. *)
Definition request_failed (outcome : FetchOutcome) : bool :=
  match outcome with
  | Rejected => true
  | Responded response =>
      negb response.(ok) || bool_decide (response.(body) = None)
  end.

(** The text that reports [hours] hours and [minutes] minutes left *)
Definition remaining_text (hours minutes : Z) : string :=
  if (0 <? hours)%Z
  then template [string_of_Z hours; "h "; string_of_Z minutes; "m remaining"]
  else template [string_of_Z minutes; "m remaining"].

Definition is_digit (c : ascii) : bool :=
  (48 <=? nat_of_ascii c)%nat && (nat_of_ascii c <=? 57)%nat.

Fixpoint all_digits_string (s : string) : bool :=
  match s with
  | EmptyString => true
  | String c s' => is_digit c && all_digits_string s'
  end.

(** The value is the number [n]. *)
Definition is_count (v : JsVal) (n : nat) : Prop :=
  ∃ q : Q, v = JNum (Num q) ∧ (q == inject_Z (Z.of_nat n))%Q.

(** A score as the back end may send it for the report to be in range:
    left out (or falsy), or a number of [[0,1]]. *)
Definition score_in_range (v : JsVal) : Prop :=
  truthy v = false ∨ in_unit_interval v.

(** A flag as the back end may send it for the report to hold a boolean:
    left out (or falsy), or a boolean. *)
Definition flag_is_boolean (v : JsVal) : Prop :=
  truthy v = false ∨ is_boolean v = true.


(** The address a call of [performReverseSearch] asks the browser for
    first: the request to the endpoint, or the page it opens. *)
Definition dispatched (effects : list ForensicsReport.Effect) : option string :=
  match effects with
  | ForensicsReport.Fetch url :: _ => Some url
  | ForensicsReport.Open (JStr url) :: _ => Some url
  | _ => None
  end.

(** The props say that the image is ready for the endpoint:
    [results?.imageId && sessionId] *)
Definition session_ready (env : ForensicsReport.Env) : bool :=
  truthy (ForensicsReport.results_imageId env.(ForensicsReport.results))
  && truthy env.(ForensicsReport.sessionId).

(** ** The vocabulary of the further properties *)

Definition is_string (v : JsVal) : bool :=
  match v with
  | JStr _ => true
  | _ => false
  end.

(** A session identifier the header can show: none, or a text. *)
Definition badge_safe (sessionId : JsVal) : Prop :=
  truthy sessionId = false ∨ is_string sessionId = true.

(** The [session_id] of the JSON body of an OK response, if there is one *)
Definition outcome_session (outcome : FetchOutcome) : JsVal :=
  match outcome with
  | Responded {| ok := true; body := Some data |} => get "session_id" data
  | _ => JUndefined
  end.

(** The back end answers the action with a session identifier the header
    can show. *)
Definition action_safe (a : App.Action) : Prop :=
  match a with
  | App.Analyze _ _ outcome _ => badge_safe (outcome_session outcome)
  | App.Reset => True
  end.


(** The windows a call opens *)
Definition opened (effects : list ForensicsReport.Effect) : list JsVal :=
  omap (λ effect, match effect with
                  | ForensicsReport.Open url => Some url
                  | _ => None
                  end) effects.

(** The address of the request [performReverseSearch] sends *)
Definition request_url (env : ForensicsReport.Env) (e : ForensicsReport.Engine)
  : string :=
  ForensicsReport.reverse_url env.(ForensicsReport.window) e
    (ForensicsReport.results_imageId env.(ForensicsReport.results))
    env.(ForensicsReport.sessionId).


(** The number of clicks on the rotate button *)
Fixpoint rotations (cs : list ImagePreview.Click) : Z :=
  match cs with
  | [] => 0
  | ImagePreview.Rotate :: cs' => 1 + rotations cs'
  | _ :: cs' => rotations cs'
  end.

(** The zoom factor lies between the two bounds of the buttons. *)
Definition zoom_in_range (st : ImagePreview.State) : Prop :=
  (1 # 2 <= st.(ImagePreview.zoom))%Q ∧ (st.(ImagePreview.zoom) <= 3)%Q.

(** ** Sample inputs *)

Definition sample_file : File.t :=
  {| File.name := "holiday.jpg"; File.size := 2097152; File.type := "image/jpeg" |}.

Definition sample_window : option Location :=
  Some {| hostname := "forensics.example.org"; origin := "https://forensics.example.org" |}.


(** A response in which every analyzer reports a failure *)
Definition response_all_failed : JsVal :=
  JObj {[ "image_id" := JStr "7f3a9c";
          "session_id" := JStr "c0ffee0123456789";
          "results" := JObj (list_to_map [
            ("exif_data", JObj {[ "error" := JStr "EXIF extraction failed" ]});
            ("tamper_detection", JObj {[ "error" := JStr "TruFor model not loaded" ]});
            ("ai_detection",
              JObj {[ "ai_detection" := JObj {[ "error" := JStr "detector unavailable" ]} ]});
            ("face_detection",
              JObj {[ "face_detection" := JObj {[ "error" := JStr "no face model" ]} ]})
          ]) ]}.

(** The [results] of a response in which every analyzer succeeded *)
Definition sample_results : gmap string JsVal :=
  list_to_map [
    ("exif_data", JObj (list_to_map [
       ("Make", JStr "Canon"); ("Model", JStr "EOS 80D");
       ("EXIF ExifImageWidth", JStr "4032"); ("EXIF ExifImageLength", JStr "3024") ]));
    ("tamper_detection", JObj {[ "integrity_score" := JNum (Num (87 # 100)) ]});
    ("ai_detection", JObj {[ "ai_detection" := JObj (list_to_map [
       ("is_ai_generated", JBool false);
       ("confidence_score", JNum (Num (12 # 100))) ]) ]});
    ("face_detection", JObj {[ "face_detection" := JObj (list_to_map [
       ("count", JInt 1);
       ("faces", JArr [ JObj (list_to_map [
          ("confidence", JNum (Num (99 # 100)));
          ("age", JInt 31);
          ("gender", JStr "F");
          ("emotion", JObj {[ "emotion" := JStr "happy" ]});
          ("bounding_box", JArr [JInt 10; JInt 20; JInt 110; JInt 220]) ]) ]) ]) ]})
  ].

Definition sample_response : gmap string JsVal :=
  list_to_map [
    ("image_id", JStr "7f3a9c");
    ("session_id", JStr "c0ffee0123456789");
    ("results", JObj sample_results) ].

(** An image file of zero bytes *)
Definition empty_png : File.t :=
  {| File.name := "empty.png"; File.size := 0; File.type := "image/png" |}.

Definition idle_upload : ImageUpload.State :=
  {| ImageUpload.dragActive := false; ImageUpload.error := None |}.

(** A response that counts three faces and lists none *)
Definition response_count_without_faces : JsVal :=
  JObj {[ "results" := JObj {[ "face_detection" :=
            JObj {[ "face_detection" := JObj {[ "count" := JInt 3 ]} ]} ]} ]}.

(** A response whose scores are percentages *)
Definition response_with_percentages : JsVal :=
  JObj {[ "results" := JObj (list_to_map [
            ("tamper_detection", JObj {[ "integrity_score" := JInt 85 ]});
            ("ai_detection", JObj {[ "ai_detection" := JObj (list_to_map [
               ("is_ai_generated", JStr "yes");
               ("confidence_score", JInt 97) ]) ]}) ]) ]}.

Definition sample_location : Location :=
  {| hostname := "forensics.example.org"; origin := "https://forensics.example.org" |}.

Definition sample_session : ReverseSearch.Session :=
  {| ReverseSearch.session_id := "c0ffee0123456789";
     ReverseSearch.image_id := "7f3a9c";
     ReverseSearch.created_at := 1000;
     ReverseSearch.expires_at := 3601000 |}.

Definition sample_store : gmap string ReverseSearch.Session :=
  {[ "c0ffee0123456789" := sample_session ]}.

Definition sample_config : ReverseSearch.Config :=
  {| ReverseSearch.base_url := "https://forensics.example.org/image/";
     ReverseSearch.search_template := λ engine image_url,
       "https://" +:+ ForensicsReport.engine_name engine +:+ ".example/search?url="
       +:+ image_url |}.

Definition sample_ok_response : FetchOutcome :=
  Responded {| ok := true; status := 200; statusText := "OK";
               body := Some (JObj sample_response) |}.

(** A response whose [session_id] is a number *)
Definition numeric_session_response : FetchOutcome :=
  Responded {| ok := true; status := 200; statusText := "OK";
               body := Some (JObj {[ "session_id" := JInt 42 ]}) |}.



(** The props of the report after the sample upload, with the back end
    unreachable *)
Definition sample_env (r : ForensicsResults) : ForensicsReport.Env :=
  {| ForensicsReport.window := sample_location;
     ForensicsReport.results := Some r;
     ForensicsReport.sessionId := JStr "c0ffee0123456789";
     ForensicsReport.popups := true;
     ForensicsReport.answer := Rejected |}.


(* ===================================================================== *)
(** * Properties *)
(* ===================================================================== *)

(** ** Facts about the run-time fragment *)

Section JsFacts.

Lemma truthy_not_nullish (v : JsVal) : truthy v = true → nullish v = false.
Proof. by destruct v. Qed.

Lemma rd_ok (k : string) (v : JsVal) : nullish v = false → rd k v = Ok (get k v).
Proof. intros H. unfold rd. by rewrite H. Qed.

Lemma rd_obj (k : string) (m : gmap string JsVal) :
  rd k (JObj m) = Ok (get k (JObj m)).
Proof. reflexivity. Qed.


Lemma or_else_not_nullish (a b : JsVal) :
  nullish b = false → nullish (or_else a b) = false.
Proof.
  intros Hb. unfold or_else. destruct (truthy a) eqn:Ha; [|done].
  by apply truthy_not_nullish.
Qed.



Lemma mapi_from_length {A B} (f : nat → A → Result B) (l : list A) :
  ∀ i bs, mapi_from f i l = Ok bs → length bs = length l.
Proof.
  induction l as [|a l IH]; intros i bs; simpl.
  - by intros [= <-].
  - destruct (f i a) as [b|e]; simpl; [|done].
    destruct (mapi_from f (S i) l) as [bs'|e] eqn:E; simpl; [|done].
    intros [= <-]. simpl. f_equal. by eapply IH.
Qed.

End JsFacts.

(** ** The run-time fragment on small inputs *)

Section JsExamples.

Example toFixed_rounds :
  map (toFixed 3) [Num 0; Num (1 # 2); Num (2 # 3); Num 12; Num (- (1 # 10000))]
  = ["0.000"; "0.500"; "0.667"; "12.000"; "-0.000"].
Proof. vm_compute. reflexivity. Qed.

Example number_to_string_forms :
  map number_to_string
    [Num 0; Num (- (1 # 8)); Num (12345 # 1000); Num (1 # 1000000);
     Num (1 # 10000000); Num (inject_Z (10 ^ 21)); NaN]
  = ["0"; "-0.125"; "12.345"; "0.000001"; "1e-7"; "1e+21"; "NaN"].
Proof. vm_compute. reflexivity. Qed.

Example ToString_array :
  ToString (JArr [JInt 1; JNull; JStr "a"; JArr [JInt 2; JInt 3]; JObj ∅])
  = "1,,a,2,3,[object Object]".
Proof. vm_compute. reflexivity. Qed.

Example parseInt_prefixes :
  map parseInt [JStr "4032"; JStr " -12px"; JStr "0x1f"; JStr "px"; JNum (Num (5 # 2))]
  = [Num 4032; Num (-12); Num 31; NaN; Num 2].
Proof. vm_compute. reflexivity. Qed.

Example string_to_number_forms :
  map string_to_number [""; " 12 "; "1.25e-2"; "0x1F"; "12px"; "-Infinity"]
  = [Num 0; Num 12; Num (1 # 80); Num 31; NaN; Inf true].
Proof. vm_compute. reflexivity. Qed.

Example sub_coerces :
  sub (JStr "110") (JInt 10) = Num 100 ∧ sub (JObj ∅) (JInt 0) = NaN.
Proof. vm_compute. done. Qed.

Example truthy_values :
  map truthy [JUndefined; JNull; JInt 0; JNum NaN; JStr ""; JStr "0"; JArr []; JObj ∅]
  = [false; false; false; false; false; true; true; true].
Proof. reflexivity. Qed.

Example formatExpiryTime_texts :
  map (ForensicsReport.formatExpiryTime 0) [0; 59999; 60000; 3599999; 3660000]%Z
  = ["Expired"; "0m remaining"; "1m remaining"; "59m remaining"; "1h 1m remaining"].
Proof. vm_compute. reflexivity. Qed.

(** Every analyzer failed: the report is there, with the messages. *)
Example all_failed_report :
  ∃ r, transformPythonResponse sample_window 0 JNull response_all_failed sample_file = Ok r
       ∧ r.(tamper).(Tamper.analysis) = JStr "TruFor model not loaded"
       ∧ r.(aiAnalysis).(AiAnalysis.analysis) = JStr "detector unavailable"
       ∧ r.(faceAnalysis).(FaceAnalysis.analysis) = JStr "no face model"
       ∧ r.(faceAnalysis).(FaceAnalysis.faces) = []
       ∧ r.(sessionId) = JStr "c0ffee0123456789"
       ∧ r.(publicImageUrl) = "https://forensics.example.org/image/7f3a9c".
Proof. eexists. split; [vm_compute; reflexivity|]. by repeat split. Qed.

(** Every analyzer succeeded. *)
Example sample_report :
  ∃ r, transformPythonResponse sample_window 0 JNull (JObj sample_response) sample_file
         = Ok r
       ∧ r.(metadata).(Metadata.camera) = JStr "Canon"
       ∧ r.(metadata).(Metadata.dimensions)
           = {| Dimensions.width := Num 4032; Dimensions.height := Num 3024 |}
       ∧ r.(tamper).(Tamper.analysis)
           = JStr "Tamper detection completed. Integrity score: 0.870"
       ∧ r.(aiAnalysis).(AiAnalysis.analysis)
           = JStr "AI detection completed. Natural image with 0.120 confidence."
       ∧ r.(faceAnalysis).(FaceAnalysis.analysis)
           = JStr "Face detection completed. Found 1 face(s)."
       ∧ map Face.id r.(faceAnalysis).(FaceAnalysis.faces) = ["face_1"]
       ∧ map (λ f, f.(Face.bbox).(BBox.width)) r.(faceAnalysis).(FaceAnalysis.faces)
           = [Num 100]
       ∧ r.(fileInfo).(FileInfo.size) = "2048.00 KB".
Proof. eexists. split; [vm_compute; reflexivity|]. by repeat split. Qed.

End JsExamples.

(** ** Facts about [transformPythonResponse] *)

Section TransformFacts.








Lemma path2_ok (results : JsVal) (a k : string) :
  nullish results = false → path2 results a k = Ok (opt k (get a results)).
Proof. intros H. unfold path2. by rewrite rd_ok. Qed.

Lemma path3_ok (results : JsVal) (a b k : string) :
  nullish results = false → path3 results a b k = Ok (opt k (opt b (get a results))).
Proof. intros H. unfold path3. by rewrite rd_ok. Qed.

Lemma template_truthy (c : ascii) (s : string) (parts : list string) :
  truthy (JStr (template (String c s :: parts))) = true.
Proof. reflexivity. Qed.

Lemma tamperSlot_spec (results : JsVal) :
  nullish results = false →
  let entry := tamper_entry results in
  is_ok (tamperSlot results) = score_ok entry "integrity_score" ∧
  ∀ t, tamperSlot results = Ok t →
    t.(Tamper.confidence) = or_else (opt "integrity_score" entry) (JInt 0) ∧
    (truthy (opt "error" entry) = true → t.(Tamper.analysis) = opt "error" entry) ∧
    tamper_populated t.
Proof.
  intros H entry. unfold tamperSlot, score_ok. rewrite !path2_ok by done. simpl.
  fold (tamper_entry results). fold entry.
  destruct (truthy (opt "error" entry)) eqn:Herr; simpl.
  - split; [done|]. intros t [= <-]; simpl.
    repeat split; try done. by apply or_else_not_nullish.
  - destruct (or_else (opt "integrity_score" entry) (JInt 0)) eqn:Hs; simpl;
      (split; [done|]); try done.
    intros t [= <-]; simpl. repeat split; try done.
Qed.


Lemma aiSlot_spec (results : JsVal) :
  nullish results = false →
  let entry := ai_entry results in
  is_ok (aiSlot results) = score_ok entry "confidence_score" ∧
  ∀ a, aiSlot results = Ok a →
    a.(AiAnalysis.confidence) = or_else (opt "confidence_score" entry) (JInt 0) ∧
    a.(AiAnalysis.isAiGenerated) = or_else (opt "is_ai_generated" entry) (JBool false) ∧
    (truthy (opt "error" entry) = true →
       a.(AiAnalysis.analysis) = opt "error" entry ∧
       a.(AiAnalysis.indicators) = ["Analysis failed"]) ∧
    ai_populated a.
Proof.
  intros H entry. unfold aiSlot, score_ok. rewrite !path3_ok by done. simpl.
  fold (ai_entry results). fold entry.
  destruct (truthy (opt "error" entry)) eqn:Herr; simpl.
  - split; [done|]. intros a [= <-]; simpl.
    repeat split; try done; by apply or_else_not_nullish.
  - destruct (or_else (opt "confidence_score" entry) (JInt 0)) eqn:Hs; simpl;
      (split; [done|]); try done.
    intros a [= <-]; simpl. repeat split; try done.
    by apply or_else_not_nullish.
Qed.


Lemma faceEntry_is_ok (index : nat) (face : JsVal) :
  is_ok (faceEntry index face) = negb (nullish face).
Proof.
  unfold faceEntry, rd. by destruct (nullish face).
Qed.

Lemma faces_map_is_ok (l : list JsVal) (i : nat) :
  is_ok (mapi_from faceEntry i l) = forallb (λ face, negb (nullish face)) l.
Proof.
  revert i. induction l as [|face l IH]; intros i; [done|].
  cbn [mapi_from forallb]. rewrite <- IH with (i := S i), <- faceEntry_is_ok with (index := i).
  destruct (faceEntry i face); [|done]. simpl. by destruct (mapi_from faceEntry (S i) l).
Qed.

Lemma faceSlot_spec (results : JsVal) :
  nullish results = false →
  let entry := face_entry results in
  is_ok (faceSlot results) = faces_ok entry ∧
  ∀ f, faceSlot results = Ok f →
    f.(FaceAnalysis.count) = or_else (opt "count" entry) (JInt 0) ∧
    length f.(FaceAnalysis.faces) = length (backend_faces entry) ∧
    (truthy (opt "error" entry) = true → f.(FaceAnalysis.analysis) = opt "error" entry) ∧
    face_populated f.
Proof.
  intros H entry. unfold faceSlot, faces_ok, backend_faces. rewrite !path3_ok by done.
  simpl. fold (face_entry results). fold entry.
  pose proof (faces_map_is_ok) as Hmap.
  destruct (opt "faces" entry) as [| |b|n|s|l|m] eqn:Hf; simpl; try done.
  - destruct (truthy (opt "error" entry)) eqn:Herr; simpl;
      (split; [done|]); intros f [= <-]; simpl; repeat split; try done;
      by apply or_else_not_nullish.
  - destruct (truthy (opt "error" entry)) eqn:Herr; simpl;
      (split; [done|]); intros f [= <-]; simpl; repeat split; try done;
      by apply or_else_not_nullish.
  - specialize (Hmap l 0). destruct (mapi_from faceEntry 0 l) as [fs|e] eqn:Hm; simpl;
      [|done].
    apply mapi_from_length in Hm.
    destruct (truthy (opt "error" entry)) eqn:Herr; simpl;
      (split; [done|]); intros f [= <-]; simpl; repeat split; try done;
      by apply or_else_not_nullish.
Qed.


Lemma exif_of_ok (results : JsVal) :
  nullish results = false →
  exif_of results = Ok (exifData_of results, hasExifData_of results)
  ∧ nullish (exifData_of results) = false.
Proof.
  intros H. unfold exif_of, exifData_of, hasExifData_of. rewrite rd_ok by done. simpl.
  assert (Hn : nullish (or_else (get "exif_data" results) emptyObject) = false)
    by by apply or_else_not_nullish.
  split; [|done]. rewrite rd_ok by done.
  by destruct (0 <? keys_length _)%nat.
Qed.


Lemma results_of_not_nullish (d : JsVal) : nullish (results_of d) = false.
Proof. by apply or_else_not_nullish. Qed.

(** The function on a response object, slot by slot *)
Lemma transform_obj window now ref (dm : gmap string JsVal) (file : File.t) :
  let d := JObj dm in
  let results := results_of d in
  transformPythonResponse window now ref d file =
    (metadata ← metadataSlot (exifData_of results) (hasExifData_of results)
                   (get "message" results) (get "suggestion" results);
     tamper ← tamperSlot results;
     aiAnalysis ← aiSlot results;
     faceAnalysis ← faceSlot results;
     fileInfo ← fileInfoSlot (exifData_of results) (hasExifData_of results) d file;
     Ok {| metadata := metadata;
           tamper := tamper;
           aiAnalysis := aiAnalysis;
           faceAnalysis := faceAnalysis;
           fileInfo := fileInfo;
           imageId := or_else (get "image_id" d) (JStr "unknown");
           publicImageUrl :=
             template [getApiBaseUrl window; "/image/"; ToString (get "image_id" d)];
           sessionId := or_else (get "session_id" d) ref;
           expiresAt := (now + 60 * 60 * 1000)%Z |}).
Proof.
  intros d results. unfold transformPythonResponse. subst d.
  rewrite !rd_obj. cbn [mbind Result_bind]. fold (results_of (JObj dm)). fold results.
  pose proof (results_of_not_nullish (JObj dm)) as Hr. fold results in Hr.
  destruct (exif_of_ok results Hr) as [-> _]. cbn [mbind Result_bind].
  rewrite !(rd_ok _ results) by done. cbn [mbind Result_bind].
  destruct (metadataSlot _ _ _ _); [|done]. cbn [mbind Result_bind].
  destruct (tamperSlot _); [|done]. cbn [mbind Result_bind].
  destruct (aiSlot _); [|done]. cbn [mbind Result_bind].
  destruct (faceSlot _); [|done]. cbn [mbind Result_bind].
  destruct (fileInfoSlot _ _ _ _); [|done]. reflexivity.
Qed.

Lemma transform_inv window now ref (dm : gmap string JsVal) (file : File.t) r :
  let results := results_of (JObj dm) in
  transformPythonResponse window now ref (JObj dm) file = Ok r →
  metadataSlot (exifData_of results) (hasExifData_of results)
    (get "message" results) (get "suggestion" results) = Ok r.(metadata) ∧
  tamperSlot results = Ok r.(tamper) ∧
  aiSlot results = Ok r.(aiAnalysis) ∧
  faceSlot results = Ok r.(faceAnalysis) ∧
  fileInfoSlot (exifData_of results) (hasExifData_of results) (JObj dm) file
    = Ok r.(fileInfo) ∧
  r.(imageId) = or_else (get "image_id" (JObj dm)) (JStr "unknown") ∧
  r.(sessionId) = or_else (get "session_id" (JObj dm)) ref ∧
  r.(expiresAt) = (now + 3600000)%Z.
Proof.
  intros results. rewrite transform_obj. fold results.
  destruct (metadataSlot _ _ _ _); [|done]. cbn [mbind Result_bind].
  destruct (tamperSlot _); [|done]. cbn [mbind Result_bind].
  destruct (aiSlot _); [|done]. cbn [mbind Result_bind].
  destruct (faceSlot _); [|done]. cbn [mbind Result_bind].
  destruct (fileInfoSlot _ _ _ _); [|done]. cbn [mbind Result_bind].
  intros [= <-]. by repeat split.
Qed.


End TransformFacts.

(** ** C1: one populated slot per analyzer *)

Section ReportSlots.









End ReportSlots.

(** ** C2: a failing analyzer does not disturb the others *)

Section FailureIsolation.









End FailureIsolation.


(** ** C3: what the upload area lets through *)

Section UploadValidation.

Import ImageUpload.

Lemma validateFile_None (file : File.t) :
  validateFile file = None ↔
  String.prefix "image/" file.(File.type) = true ∧ (file.(File.size) <= size_ceiling)%Z.
Proof.
  unfold validateFile, size_ceiling.
  destruct (String.prefix "image/" (File.type file)); simpl.
  - destruct (Z.ltb_spec (10 * 1024 * 1024) (File.size file)) as [Hlt|Hle];
      (split; [intros H|intros [_ H]]); try done; try lia.
  - split; [done|]. by intros [? _].
Qed.

Lemma validateFile_is_error (file : File.t) :
  is_error (validateFile file) = negb (bool_decide (validateFile file = None)).
Proof.
  unfold validateFile.
  destruct (String.prefix "image/" (File.type file)); simpl; [|done].
  by destruct (10 * 1024 * 1024 <? File.size file)%Z.
Qed.

(** C3 (as stated, refuted): an image file of zero bytes passes
    [validateFile], is handed to [onImageUpload], and the request to the
    analysis endpoint is made. *)
Lemma C3_counterexample :
  empty_png.(File.size) = 0%Z
  ∧ validateFile empty_png = None
  ∧ snd (handleFiles (Some [empty_png]) idle_upload) = Some empty_png
  ∧ (App.drop sample_window 0 Rejected (Some [empty_png]) idle_upload initialState)
      .(App.fetched) = true.
Proof. repeat split. Qed.

(** C3 (amended): [validateFile] returns an error for a file whose
    declared MIME type does not begin with ["image/"] and for a file of
    more than 10 MiB, and for no other file (a file of zero bytes with an
    image type is accepted); [handleFiles] hands a file to
    [onImageUpload], and the application issues the analysis request,
    only for the first file of the list and only when [validateFile]
    returned null for it. *)
Theorem C3_upload_validation :
  (∀ file, String.prefix "image/" file.(File.type) = false →
           validateFile file = Some "Please upload a valid image file")
  ∧ (∀ file, (size_ceiling < file.(File.size))%Z → validateFile file ≠ None)
  ∧ (∀ file, validateFile file = None ↔
             String.prefix "image/" file.(File.type) = true
             ∧ (file.(File.size) <= size_ceiling)%Z)
  ∧ (∀ files st file,
       snd (handleFiles files st) = Some file ↔
       head (default [] files) = Some file ∧ validateFile file = None)
  ∧ (∀ window now outcome files up st,
       (App.drop window now outcome files up st).(App.fetched) = true ↔
       ∃ file, head (default [] files) = Some file ∧ validateFile file = None).
Proof.
  assert (Hh : ∀ files st file,
             snd (handleFiles files st) = Some file ↔
             head (default [] files) = Some file ∧ validateFile file = None).
  { intros [[|f fs]|] st file; simpl; try (split; [done|by intros [? _]]).
    rewrite validateFile_is_error.
    destruct (validateFile f) eqn:E; simpl.
    - split; [done|]. intros [[= ->] ?]. congruence.
    - split; [by intros [= ->]|]. by intros [[= ->] _]. }
  split; [|split; [|split; [|split]]].
  - intros file H. unfold validateFile. by rewrite H.
  - intros file H E. apply validateFile_None in E as [_ ?]. lia.
  - apply validateFile_None.
  - exact Hh.
  - intros window now outcome files up st. unfold App.drop.
    destruct (handleFiles files up) as [up' [f|]] eqn:E; simpl.
    + split; [|done]. intros _. exists f. apply (Hh files up f). by rewrite E.
    + split; [done|]. intros (f & Hf). apply (Hh files up f) in Hf.
      rewrite E in Hf. done.
Qed.

End UploadValidation.

Lemma C3_upload_validation_witness :
  ImageUpload.validateFile
    {| File.name := "notes.pdf"; File.size := 1000; File.type := "application/pdf" |}
  = Some "Please upload a valid image file".
Proof. apply (proj1 C3_upload_validation). reflexivity. Defined.

(** ** C9 and C10: the state of the hook *)

Section HookFacts.

Ltac step :=
  unfold mbind, mret, M_bind, M_ret, Result_bind, Result_ret, lift, update, read,
    await_fetch, json;
  cbn [ok body status statusText negb fst snd session_after
       setIsAnalyzing setResults setUploadedImage setSessionIdRef
       isAnalyzing results uploadedImage sessionIdRef];
  cbv beta iota zeta;
  cbn [ok body status statusText negb fst snd session_after
       setIsAnalyzing setResults setUploadedImage setSessionIdRef
       isAnalyzing results uploadedImage sessionIdRef].

Lemma analyzeImage_spec window now outcome (file : File.t) (st : HookState) :
  let st' := fst (analyzeImage window now outcome file st) in
  let alerted := snd (analyzeImage window now outcome file st) in
  st'.(isAnalyzing) = false ∧
  st'.(uploadedImage) = Some file ∧
  st'.(sessionIdRef) = session_after outcome st.(sessionIdRef) ∧
  ((alerted = None ∧
    ∃ response data r,
      outcome = Responded response ∧ response.(ok) = true ∧
      response.(body) = Some data ∧
      transformPythonResponse window now st'.(sessionIdRef) data file = Ok r ∧
      st'.(results) = Some r)
   ∨ (∃ e, alerted = Some e ∧ st'.(results) = None)).
Proof.
  unfold analyzeImage, analyzeImage_try.
  destruct outcome as [|[[] status statusText [data|]]]; step.
  - repeat split; right; by eexists.
  - destruct (nullish data) eqn:Hn.
    { unfold rd. rewrite Hn. step.
      assert (Hg : get "session_id" data = JUndefined) by by destruct data.
      rewrite Hg. cbn. repeat split; right; by eexists. }
    rewrite !(rd_ok _ _ Hn). step.
    destruct (truthy (get "session_id" data)) eqn:Hs; step.
    + destruct (call_substring 8 (get "session_id" data)); step.
      * destruct (transformPythonResponse _ _ _ _ _) eqn:Ht; step.
        -- repeat split. left. split; [done|]. by eexists _, _, _.
        -- repeat split. right. by eexists.
      * repeat split. right. by eexists.
    + destruct (transformPythonResponse _ _ _ _ _) eqn:Ht; step.
      * repeat split. left. split; [done|]. by eexists _, _, _.
      * repeat split. right. by eexists.
  - repeat split; right; by eexists.
  - destruct (nullish data) eqn:Hn.
    { unfold rd. rewrite Hn. step. repeat split; right; by eexists. }
    rewrite !(rd_ok _ _ Hn). step.
    destruct (truthy (get "detail" data)); step; [repeat split; right; by eexists|].
    destruct (truthy (get "error" data)); step; repeat split; right; by eexists.
  - repeat split; right; by eexists.
Qed.

(** C9: [resetAnalysis] sets [results] and [uploadedImage] to null and
    [isAnalyzing] to false and leaves [sessionIdRef.current] as it was;
    so after an upload followed by a reset, the hook still refers to the
    session that upload established. *)
Theorem C9_resetAnalysis_frame (st : HookState) :
  (resetAnalysis st).(results) = None
  ∧ (resetAnalysis st).(uploadedImage) = None
  ∧ (resetAnalysis st).(isAnalyzing) = false
  ∧ (resetAnalysis st).(sessionIdRef) = st.(sessionIdRef)
  ∧ hook_sessionId (resetAnalysis st) = hook_sessionId st
  ∧ ∀ window now outcome file,
      hook_sessionId (resetAnalysis (fst (analyzeImage window now outcome file st)))
      = session_after outcome st.(sessionIdRef).
Proof.
  repeat split. intros window now outcome file.
  pose proof (analyzeImage_spec window now outcome file st) as (_ & _ & H & _).
  exact H.
Qed.

(** C10: [analyzeImage] always ends with [isAnalyzing] false.  Whenever
    an error was caught, whatever it is, [results] is null; [results] is
    a report only when the answer was an OK response with a JSON body,
    and then it is exactly [transformPythonResponse] of that body.  A
    rejected request, a status that is not OK, or a body that is not JSON
    always ends in the [catch] block. *)
Theorem C10_analyzeImage_atomic window now outcome (file : File.t) (st : HookState) :
  let st' := fst (analyzeImage window now outcome file st) in
  let alerted := snd (analyzeImage window now outcome file st) in
  st'.(isAnalyzing) = false
  ∧ match alerted with
    | Some error => st'.(results) = None
    | None =>
        ∃ response data r,
          outcome = Responded response ∧ response.(ok) = true ∧
          response.(body) = Some data ∧
          transformPythonResponse window now st'.(sessionIdRef) data file = Ok r ∧
          st'.(results) = Some r
    end
  ∧ (if request_failed outcome then st'.(results) = None ∧ alerted ≠ None else True).
Proof.
  intros st' alerted.
  destruct (analyzeImage_spec window now outcome file st)
    as (Ha & _ & _ & [[Hnone Hok]|[e [Hsome Hnull]]]).
  - fold st' in Ha, Hok. fold alerted in Hnone.
    split; [done|]. rewrite Hnone. split; [done|].
    destruct Hok as (response & data & r & -> & Hk & Hb & _). simpl.
    rewrite Hk, Hb. done.
  - fold st' in Ha, Hnull. fold alerted in Hsome.
    split; [done|]. rewrite Hsome. split; [done|].
    by destruct (request_failed outcome).
Qed.

End HookFacts.

(** ** C4: expiry *)

Section Expiry.

Import ForensicsReport.

Lemma append_cons (c : ascii) (s t : string) : String c s +:+ t = String c (s +:+ t).
Proof. reflexivity. Qed.

Lemma append_nil (t : string) : "" +:+ t = t.
Proof. reflexivity. Qed.

Lemma string_of_uint_digits (d : Decimal.uint) :
  all_digits_string (NilEmpty.string_of_uint d) = true.
Proof. induction d; simpl; done. Qed.

Lemma string_of_N_shape (n : N) :
  ∃ c s, string_of_N n = String c s ∧ is_digit c = true ∧ all_digits_string s = true.
Proof.
  unfold string_of_N, NilZero.string_of_uint.
  pose proof (string_of_uint_digits (N.to_uint n)) as H.
  destruct (N.to_uint n); simpl in *; eexists _, _; (split; [reflexivity|]); done.
Qed.

Lemma string_of_N_zero (n : N) : string_of_N n = "0" → n = 0%N.
Proof.
  unfold string_of_N, NilZero.string_of_uint. intros H.
  rewrite <- (DecimalN.Unsigned.of_to n).
  destruct (N.to_uint n) as [|d| | | | | | | | |]; try discriminate H; [done|].
  destruct d; try discriminate H. reflexivity.
Qed.

Lemma string_of_Z_nonneg (z : Z) : (0 <= z)%Z → string_of_Z z = string_of_N (Z.to_N z).
Proof.
  intros H. unfold string_of_Z. destruct (Z.ltb_spec z 0); [lia|].
  f_equal. lia.
Qed.

Lemma string_of_Z_head (z : Z) :
  ∃ c s, string_of_Z z = String c s ∧ c ≠ "E"%char.
Proof.
  unfold string_of_Z. destruct (z <? 0)%Z.
  - eexists _, _. split; [reflexivity|done].
  - destruct (string_of_N_shape (Z.abs_N z)) as (c & s & -> & Hc & _).
    eexists _, _. split; [reflexivity|]. intros ->. discriminate Hc.
Qed.

Lemma formatExpiryTime_live (now expiresAt : Z) :
  (now < expiresAt)%Z →
  let total := ((expiresAt - now) / 60000)%Z in
  formatExpiryTime now expiresAt = remaining_text (total / 60) (total mod 60)
  ∧ (0 <= total)%Z ∧ ((0 < total)%Z ↔ (60000 <= expiresAt - now)%Z).
Proof.
  intros H total. unfold formatExpiryTime, remaining_text.
  destruct (Z.leb_spec (expiresAt - now) 0); [lia|].
  change (1000 * 60)%Z with 60000%Z. fold total.
  assert (Ht : (0 <= total)%Z) by (apply Z.div_pos; lia).
  split; [|split; [done|]].
  - destruct (Z.ltb_spec 0 (total / 60)) as [Hh|Hh]; [done|].
    assert (total / 60 = 0)%Z as E by (pose proof (Z.div_pos total 60); lia).
    apply Z.div_small_iff in E as [E|E]; [|lia|lia].
    by rewrite Z.mod_small.
  - subst total. split; intros Hx.
    + destruct (Z.lt_ge_cases (expiresAt - now) 60000) as [Hlt|Hge]; [|done].
      rewrite Z.div_small in Hx by lia. lia.
    + apply Z.div_str_pos. lia.
Qed.

Lemma formatExpiryTime_Expired (now expiresAt : Z) :
  formatExpiryTime now expiresAt = "Expired" ↔ (expiresAt <= now)%Z.
Proof.
  split.
  - intros H. destruct (Z.le_gt_cases expiresAt now) as [|Hlt]; [done|].
    destruct (formatExpiryTime_live now expiresAt) as [E _]; [lia|].
    rewrite E in H. unfold remaining_text in H.
    destruct (0 <? _)%Z.
    + destruct (string_of_Z_head ((expiresAt - now) / 60000 / 60)) as (c & s & Hs & Hc).
      unfold template in H. simpl in H. rewrite Hs, append_cons in H. congruence.
    + destruct (string_of_Z_head (((expiresAt - now) / 60000) mod 60)) as (c & s & Hs & Hc).
      unfold template in H. simpl in H. rewrite Hs, append_cons in H. congruence.
  - intros H. unfold formatExpiryTime.
    destruct (Z.leb_spec (expiresAt - now) 0); [done|lia].
Qed.

Lemma transform_expiresAt window now ref (d : JsVal) (file : File.t) r :
  transformPythonResponse window now ref d file = Ok r →
  r.(expiresAt) = (now + 3600000)%Z.
Proof.
  unfold transformPythonResponse.
  repeat match goal with
         | |- (?x ≫= _) = _ → _ =>
             destruct x as [?|?]; cbn [mbind Result_bind]; [|discriminate]
         | |- (let '(_, _) := ?p in _) = _ → _ => destruct p
         end.
  by intros [= <-].
Qed.

(** C4 (as stated, refuted): with thirty seconds left the session is
    live, yet the time reported is "0m remaining": no text for a positive
    number of hours and minutes. *)
Lemma C4_counterexample :
  (0 < 30000)%Z
  ∧ formatExpiryTime 0 30000 = "0m remaining"
  ∧ ¬ ∃ h m, (0 <= h)%Z ∧ (0 <= m)%Z ∧ (0 < 60 * h + m)%Z
             ∧ formatExpiryTime 0 30000 = remaining_text h m.
Proof.
  split; [done|]. split; [reflexivity|].
  intros (h & m & Hh & Hm & Hpos & E).
  change (formatExpiryTime 0 30000) with "0m remaining" in E.
  unfold remaining_text, template in E. simpl in E.
  destruct (Z.ltb_spec 0 h) as [Hlt|Hge].
  - rewrite (string_of_Z_nonneg h) in E by done.
    destruct (string_of_N_shape (Z.to_N h)) as (c & s & Hs & _ & Hall).
    rewrite Hs, append_cons in E. injection E as _ E.
    destruct s as [|c2 s2].
    + rewrite append_nil, !append_cons in E. discriminate E.
    + rewrite append_cons in E. injection E as <- _. discriminate Hall.
  - assert (h = 0)%Z as -> by lia.
    rewrite (string_of_Z_nonneg m) in E by done.
    destruct (string_of_N_shape (Z.to_N m)) as (c & s & Hs & _ & Hall).
    rewrite Hs, append_cons in E. injection E as <- E.
    destruct s as [|c2 s2].
    + apply string_of_N_zero in Hs. lia.
    + rewrite append_cons in E. injection E as <- _. discriminate Hall.
Qed.

(** C4 (amended): a report's [expiresAt] is the time of the transform
    plus one hour, hence later than that time; [formatExpiryTime] answers
    "Expired" exactly when [expiresAt <= now]; otherwise it reports the
    whole minutes left, rounded down, as hours and minutes: a figure that
    is positive exactly when a full minute is left ("0m remaining" in the
    last minute). *)
Theorem C4_session_expiry :
  (∀ window now ref d file r,
     transformPythonResponse window now ref d file = Ok r →
     r.(expiresAt) = (now + 60 * 60 * 1000)%Z ∧ (now < r.(expiresAt))%Z)
  ∧ (∀ now expiresAt,
       formatExpiryTime now expiresAt = "Expired" ↔ (expiresAt <= now)%Z)
  ∧ (∀ now expiresAt,
       (now < expiresAt)%Z →
       let total := ((expiresAt - now) / 60000)%Z in
       formatExpiryTime now expiresAt = remaining_text (total / 60) (total mod 60)
       ∧ (0 <= total)%Z ∧ ((0 < total)%Z ↔ (60000 <= expiresAt - now)%Z)).
Proof.
  split; [|split].
  - intros window now ref d file r H. apply transform_expiresAt in H. lia.
  - apply formatExpiryTime_Expired.
  - apply formatExpiryTime_live.
Qed.

Lemma C4_session_expiry_witness :
  ∃ r, transformPythonResponse sample_window 1000 JNull (JObj sample_response)
         sample_file = Ok r
       ∧ r.(expiresAt) = 3601000%Z
       ∧ formatExpiryTime 1000 r.(expiresAt) = "1h 0m remaining".
Proof.
  destruct (transformPythonResponse sample_window 1000 JNull (JObj sample_response)
              sample_file) as [r|e] eqn:H.
  - destruct (proj1 C4_session_expiry _ _ _ _ _ _ H) as [E Hlt].
    exists r. split; [reflexivity|]. split; [exact E|].
    destruct (proj2 (proj2 C4_session_expiry) 1000%Z r.(expiresAt) Hlt) as [-> _].
    rewrite E. reflexivity.
  - vm_compute in H. discriminate H.
Defined.

End Expiry.

(** ** C7 and C8: what the slots carry *)

Section SlotValues.

(** C7 (as stated, refuted): the back end counts three faces and lists
    none; the slot's [count] is 3 and its [faces] array is empty. *)
Lemma C7_counterexample :
  ∃ r, transformPythonResponse sample_window 0 JNull response_count_without_faces
         sample_file = Ok r
       ∧ r.(faceAnalysis).(FaceAnalysis.count) = JInt 3
       ∧ r.(faceAnalysis).(FaceAnalysis.faces) = []
       ∧ ¬ is_count r.(faceAnalysis).(FaceAnalysis.count)
             (length r.(faceAnalysis).(FaceAnalysis.faces)).
Proof.
  eexists. split; [vm_compute; reflexivity|]. split; [reflexivity|].
  split; [reflexivity|]. simpl. intros (q & [= <-] & Hq). discriminate Hq.
Qed.

(** C7 (amended): in a report, the [count] of the faceAnalysis slot is
    the count the back end sent (0 when it sent none), and its [faces]
    array has one entry per face the back end listed; so [count] is the
    length of [faces] exactly when the back end's count is the length of
    its list. *)
Theorem C7_face_count window now ref (dm : gmap string JsVal) (file : File.t) r :
  transformPythonResponse window now ref (JObj dm) file = Ok r →
  let entry := face_entry (results_of (JObj dm)) in
  let slot := r.(faceAnalysis) in
  slot.(FaceAnalysis.count) = or_else (opt "count" entry) (JInt 0)
  ∧ length slot.(FaceAnalysis.faces) = length (backend_faces entry)
  ∧ (is_count slot.(FaceAnalysis.count) (length slot.(FaceAnalysis.faces)) ↔
     is_count (or_else (opt "count" entry) (JInt 0)) (length (backend_faces entry))).
Proof.
  intros H entry slot. apply transform_inv in H as (_ & _ & _ & Hf & _).
  destruct (faceSlot_spec _ (results_of_not_nullish (JObj dm))) as [_ Hspec].
  destruct (Hspec _ Hf) as (Hc & Hl & _). fold entry in Hc, Hl. fold slot in Hc, Hl.
  split; [done|]. split; [done|]. by rewrite Hc, Hl.
Qed.

Lemma C7_face_count_witness :
  ∃ r, transformPythonResponse sample_window 0 JNull (JObj sample_response)
         sample_file = Ok r
       ∧ r.(faceAnalysis).(FaceAnalysis.count) = JInt 1
       ∧ length r.(faceAnalysis).(FaceAnalysis.faces) = 1.
Proof.
  destruct (transformPythonResponse sample_window 0 JNull (JObj sample_response)
              sample_file) as [r|e] eqn:H.
  - destruct (C7_face_count _ _ _ _ _ _ H) as (Hc & Hl & _).
    exists r. split; [reflexivity|]. split; [exact Hc|exact Hl].
  - vm_compute in H. discriminate H.
Defined.

Lemma or_else_in_unit_interval (v : JsVal) :
  in_unit_interval (or_else v (JInt 0)) ↔ score_in_range v.
Proof.
  unfold or_else, score_in_range. destruct (truthy v) eqn:Hv.
  - split; [by right|]. by intros [?|?].
  - split; [by left|]. intros _. exists (inject_Z 0). by repeat split.
Qed.

Lemma or_else_is_boolean (v : JsVal) :
  is_boolean (or_else v (JBool false)) = true ↔ flag_is_boolean v.
Proof.
  unfold or_else, flag_is_boolean. destruct (truthy v) eqn:Hv.
  - split; [by right|]. by intros [?|?].
  - split; [by left|done].
Qed.

(** C8 (as stated, refuted): the back end sends its scores as
    percentages and its flag as text; the report carries 85 and 97 as
    confidences and ["yes"] as the flag. *)
Lemma C8_counterexample :
  ∃ r, transformPythonResponse sample_window 0 JNull response_with_percentages
         sample_file = Ok r
       ∧ r.(tamper).(Tamper.confidence) = JInt 85
       ∧ ¬ in_unit_interval r.(tamper).(Tamper.confidence)
       ∧ r.(aiAnalysis).(AiAnalysis.confidence) = JInt 97
       ∧ r.(aiAnalysis).(AiAnalysis.isAiGenerated) = JStr "yes".
Proof.
  eexists. split; [vm_compute; reflexivity|]. split; [reflexivity|].
  split; [|split; reflexivity]. simpl.
  intros (q & [= <-] & _ & Hq). by apply Hq.
Qed.

(** C8 (amended): in a report, the tamper confidence is the
    [integrity_score] the back end sent, the AI confidence its
    [confidence_score] (0 when it sent none) and the AI flag its
    [is_ai_generated] ([false] when it sent none).  So each confidence is
    a number of [[0,1]] exactly when the back end's score is one or is
    left out, and the flag is a boolean exactly when the back end's is
    one or is left out. *)
Theorem C8_scores_pass_through window now ref (dm : gmap string JsVal)
    (file : File.t) r :
  transformPythonResponse window now ref (JObj dm) file = Ok r →
  let t := tamper_entry (results_of (JObj dm)) in
  let a := ai_entry (results_of (JObj dm)) in
  r.(tamper).(Tamper.confidence) = or_else (opt "integrity_score" t) (JInt 0)
  ∧ r.(aiAnalysis).(AiAnalysis.confidence) = or_else (opt "confidence_score" a) (JInt 0)
  ∧ r.(aiAnalysis).(AiAnalysis.isAiGenerated)
      = or_else (opt "is_ai_generated" a) (JBool false)
  ∧ (in_unit_interval r.(tamper).(Tamper.confidence)
       ↔ score_in_range (opt "integrity_score" t))
  ∧ (in_unit_interval r.(aiAnalysis).(AiAnalysis.confidence)
       ↔ score_in_range (opt "confidence_score" a))
  ∧ (is_boolean r.(aiAnalysis).(AiAnalysis.isAiGenerated) = true
       ↔ flag_is_boolean (opt "is_ai_generated" a)).
Proof.
  intros H t a. apply transform_inv in H as (_ & Ht & Ha & _).
  pose proof (results_of_not_nullish (JObj dm)) as Hr.
  destruct (tamperSlot_spec _ Hr) as [_ Hts]. destruct (Hts _ Ht) as (-> & _).
  destruct (aiSlot_spec _ Hr) as [_ Has]. destruct (Has _ Ha) as (-> & -> & _).
  fold t a. repeat split;
    try apply or_else_in_unit_interval; try apply or_else_is_boolean.
Qed.

Lemma C8_scores_pass_through_witness :
  ∃ r, transformPythonResponse sample_window 0 JNull (JObj sample_response)
         sample_file = Ok r
       ∧ in_unit_interval r.(tamper).(Tamper.confidence)
       ∧ in_unit_interval r.(aiAnalysis).(AiAnalysis.confidence)
       ∧ is_boolean r.(aiAnalysis).(AiAnalysis.isAiGenerated) = true.
Proof.
  destruct (transformPythonResponse sample_window 0 JNull (JObj sample_response)
              sample_file) as [r|e] eqn:H.
  - destruct (C8_scores_pass_through _ _ _ _ _ _ H) as (_ & _ & _ & H1 & H2 & H3).
    exists r. split; [reflexivity|]. split; [|split].
    + apply H1. right. exists (87 # 100). by repeat split.
    + apply H2. right. exists (12 # 100). by repeat split.
    + apply H3. by right.
  - vm_compute in H. discriminate H.
Defined.

End SlotValues.

(** ** C5 and C6: reverse search *)

Section ReverseSearchFacts.

Import ForensicsReport ReverseSearch.






Lemma parse_engine_name (e : Engine) : parse_engine (engine_name e) = Some e.
Proof. by destruct e. Qed.



Lemma dispatched_spec (env : Env) (e : Engine) :
  dispatched (snd (performReverseSearch env e))
  = Some (if session_ready env
          then reverse_url env.(window) e (results_imageId env.(results)) env.(sessionId)
          else fallbackUrls e).
Proof.
  unfold performReverseSearch, performReverseSearch_try, session_ready.
  destruct (truthy (results_imageId (results env)) && truthy (sessionId env)).
  - destruct (await_fetch (answer env)) as [response|?]; [|done].
    destruct (UseForensics.ok response).
    + destruct (json response ≫= rd "search_url"); [|done]. by destruct (popups env).
    + by destruct (json response ≫= _).
  - by destruct (popups env).
Qed.

Lemma build_reads_only cfg now engine image_id session_id
    (store : gmap string Session) :
  fst (build cfg now engine image_id session_id store) = store.
Proof.
  unfold build. destruct (parse_engine engine); [|done].
  destruct (store !! session_id); [|done]. by destruct (_ && _).
Qed.

Lemma build_live cfg now (e : Engine) image_id session_id
    (store : gmap string Session) (s : Session) :
  store !! session_id = Some s → s.(ReverseSearch.image_id) = image_id →
  live now s = true →
  build cfg now (engine_name e) image_id session_id store
  = (store, inr (cfg.(search_template) e (public_image_url cfg image_id))).
Proof.
  intros Hs Hi Hl. unfold build. rewrite parse_engine_name, Hs, Hi, Hl.
  by rewrite String.eqb_refl.
Qed.



(** C6: asking for a reverse search is a read and a computation on
    text.  In the front end the address asked for is a function of the
    page's location, the engine, [results.imageId] and [sessionId] only
    (not of the pop-up setting, of the back end's answer or of anything
    else in the props), and the call leaves [searchLoading] null; in the
    back end's builder the session store is returned as it was found, so
    a second call sees the same store, and two calls for the same engine
    while the session is live return the same address. *)
Theorem C6_reverse_search_deterministic :
  (∀ env1 env2 e,
     env1.(window) = env2.(window) →
     results_imageId env1.(results) = results_imageId env2.(results) →
     env1.(sessionId) = env2.(sessionId) →
     dispatched (snd (performReverseSearch env1 e))
     = dispatched (snd (performReverseSearch env2 e)))
  ∧ (∀ env e, fst (performReverseSearch env e) = None)
  ∧ (∀ cfg now engine image_id session_id store,
       fst (build cfg now engine image_id session_id store) = store)
  ∧ (∀ cfg now1 now2 e image_id session_id store s,
       store !! session_id = Some s → s.(ReverseSearch.image_id) = image_id →
       live now1 s = true → live now2 s = true →
       let first := build cfg now1 (engine_name e) image_id session_id store in
       let second := build cfg now2 (engine_name e) image_id session_id (fst first) in
       snd first = inr (cfg.(search_template) e (public_image_url cfg image_id))
       ∧ snd second = snd first
       ∧ fst second = store).
Proof.
  repeat apply conj.
  - intros env1 env2 e Hw Hi Hs. rewrite !dispatched_spec.
    unfold session_ready. by rewrite Hw, Hi, Hs.
  - done.
  - apply build_reads_only.
  - intros cfg now1 now2 e image_id session_id store s Hs Hi H1 H2 first second.
    subst first second.
    rewrite (build_live cfg now1 e image_id session_id store s) by done. simpl.
    by rewrite (build_live cfg now2 e image_id session_id store s).
Qed.

Lemma C6_reverse_search_deterministic_witness :
  let first := ReverseSearch.build sample_config 2000 "google" "7f3a9c"
                 "c0ffee0123456789" sample_store in
  let second := ReverseSearch.build sample_config 5000 "google" "7f3a9c"
                  "c0ffee0123456789" (fst first) in
  snd first
    = inr "https://google.example/search?url=https://forensics.example.org/image/7f3a9c"
  ∧ snd second = snd first
  ∧ fst second = sample_store.
Proof.
  apply (proj2 (proj2 (proj2 C6_reverse_search_deterministic))
           sample_config 2000%Z 5000%Z google "7f3a9c" "c0ffee0123456789"
           sample_store sample_session); reflexivity.
Defined.

End ReverseSearchFacts.

(* ===================================================================== *)
(** * Further properties *)
(* ===================================================================== *)

(** ** Identifiers of a report *)

Section ReportIdentifiers.

Lemma transform_not_nullish window now ref (d : JsVal) (file : File.t) r :
  transformPythonResponse window now ref d file = Ok r → nullish d = false.
Proof.
  destruct (nullish d) eqn:Hn; [|done].
  unfold transformPythonResponse, rd. by rewrite Hn.
Qed.

Lemma fileInfoSlot_hash exifData has (d : JsVal) (file : File.t) f :
  nullish d = false → fileInfoSlot exifData has d file = Ok f →
  f.(FileInfo.hash) = or_else (get "image_id" d) (JStr "unknown").
Proof.
  intros Hn. unfold fileInfoSlot. rewrite (rd_ok _ d Hn).
  destruct (exif_dimensions has exifData); cbn [mbind Result_bind]; [|discriminate].
  destruct (exif_field has exifData _); cbn [mbind Result_bind]; [|discriminate].
  by intros [= <-].
Qed.

Lemma transform_ids window now ref (d : JsVal) (file : File.t) r :
  transformPythonResponse window now ref d file = Ok r →
  r.(imageId) = or_else (get "image_id" d) (JStr "unknown")
  ∧ r.(fileInfo).(FileInfo.hash) = or_else (get "image_id" d) (JStr "unknown")
  ∧ r.(publicImageUrl)
      = template [UseForensics.getApiBaseUrl window; "/image/"; ToString (get "image_id" d)]
  ∧ r.(sessionId) = or_else (get "session_id" d) ref.
Proof.
  intros H. pose proof (transform_not_nullish _ _ _ _ _ _ H) as Hn. revert H.
  unfold transformPythonResponse. rewrite !(rd_ok _ d Hn).
  repeat match goal with
         | |- (Ok _ ≫= _) = _ → _ => cbn [mbind Result_bind]
         | |- (let '(_, _) := ?p in _) = _ → _ => destruct p
         | |- (fileInfoSlot ?e ?h d file ≫= _) = _ → _ =>
             destruct (fileInfoSlot e h d file) as [?|?] eqn:Hfile;
             cbn [mbind Result_bind]; [|discriminate]
         | |- (?x ≫= _) = _ → _ =>
             destruct x as [?|?]; cbn [mbind Result_bind]; [|discriminate]
         end.
  intros [= <-]. simpl. apply (fileInfoSlot_hash _ _ _ _ _ Hn) in Hfile.
  by repeat split.
Qed.

(** X1: whenever [analyzeImage] leaves a report, the report's
    [sessionId] is the session identifier the hook returns. *)
Theorem X1_report_session_is_hook_session window now outcome (file : File.t)
    (st : HookState) (r : ForensicsResults) :
  (fst (analyzeImage window now outcome file st)).(results) = Some r →
  r.(sessionId) = hook_sessionId (fst (analyzeImage window now outcome file st)).
Proof.
  intros Hr.
  destruct (analyzeImage_spec window now outcome file st)
    as (_ & _ & Href & [[_ (response & data & r' & -> & Hk & Hb & Ht & Hr')]|(e & _ & Hn)]);
    [|congruence].
  rewrite Hr in Hr'. injection Hr' as <-.
  apply transform_ids in Ht as (_ & _ & _ & ->).
  unfold hook_sessionId. rewrite Href.
  destruct response as [k status statusText b]. simpl in Hk, Hb. subst k b. simpl.
  unfold or_else. by destruct (truthy (get "session_id" data)).
Qed.

Lemma X1_report_session_is_hook_session_witness :
  ∃ r, (fst (analyzeImage sample_window 0 sample_ok_response sample_file initialState))
         .(results) = Some r
       ∧ r.(sessionId) = JStr "c0ffee0123456789".
Proof.
  destruct (results
              (fst (analyzeImage sample_window 0 sample_ok_response sample_file
                      initialState))) as [r|] eqn:H.
  - exists r. split; [reflexivity|].
    rewrite (X1_report_session_is_hook_session _ _ _ _ _ _ H). reflexivity.
  - vm_compute in H. discriminate H.
Defined.

Lemma imageId_truthy window now ref (d : JsVal) (file : File.t) r :
  transformPythonResponse window now ref d file = Ok r → truthy r.(imageId) = true.
Proof.
  intros (-> & _)%transform_ids. unfold or_else.
  by destruct (truthy (get "image_id" d)) eqn:E.
Qed.

(** X2: the [imageId] and the hash of a report are never empty: without
    an [image_id] in the response they are ["unknown"], while the
    address of the image is then built from the text ["undefined"]. *)
Theorem X2_imageId_fallback window now ref (d : JsVal) (file : File.t) r :
  transformPythonResponse window now ref d file = Ok r →
  truthy r.(imageId) = true
  ∧ r.(fileInfo).(FileInfo.hash) = r.(imageId)
  ∧ (truthy (get "image_id" d) = false → r.(imageId) = JStr "unknown")
  ∧ (get "image_id" d = JUndefined →
     r.(publicImageUrl) = UseForensics.getApiBaseUrl window +:+ "/image/undefined").
Proof.
  intros H. pose proof (imageId_truthy _ _ _ _ _ _ H) as Ht.
  apply transform_ids in H as (Hi & Hh & Hu & _). rewrite Hh, Hu, <- Hi.
  repeat split; [done| |].
  - rewrite Hi. intros E. unfold or_else. by rewrite E.
  - intros ->. reflexivity.
Qed.

Lemma X2_imageId_fallback_witness :
  ∃ r, transformPythonResponse sample_window 0 JNull response_count_without_faces
         sample_file = Ok r
       ∧ r.(imageId) = JStr "unknown"
       ∧ r.(publicImageUrl) = "https://forensics.example.org/image/undefined".
Proof.
  destruct (transformPythonResponse sample_window 0 JNull response_count_without_faces
              sample_file) as [r|e] eqn:H.
  - destruct (X2_imageId_fallback _ _ _ _ _ _ H) as (_ & _ & Hi & Hu).
    exists r. split; [reflexivity|]. split; [by apply Hi|by apply Hu].
  - vm_compute in H. discriminate H.
Defined.

(** X3: once a report is shown, the reverse-search buttons are enabled
    and every click sends the request to the endpoint when the hook has a
    session identifier, and opens the engine's own page when it has none:
    the missing [imageId] that the code tests for cannot occur. *)
Theorem X3_reverse_search_after_report window now ref (d : JsVal) (file : File.t) r
    (env : ForensicsReport.Env) (e : ForensicsReport.Engine) :
  transformPythonResponse window now ref d file = Ok r →
  env.(ForensicsReport.results) = Some r →
  ForensicsReport.search_disabled None env.(ForensicsReport.results) e = false
  ∧ ForensicsReport.search_badge env.(ForensicsReport.results) env.(ForensicsReport.sessionId)
    = (if truthy env.(ForensicsReport.sessionId) then "READY" else "PROCESSING")
  ∧ dispatched (snd (ForensicsReport.performReverseSearch env e))
    = Some (if truthy env.(ForensicsReport.sessionId) then request_url env e
            else ForensicsReport.fallbackUrls e).
Proof.
  intros Hi%imageId_truthy Hr.
  rewrite dispatched_spec.
  unfold session_ready, ForensicsReport.search_disabled, ForensicsReport.search_badge,
    request_url.
  rewrite Hr. simpl. by rewrite Hi.
Qed.

Lemma X3_reverse_search_after_report_witness :
  ∃ r, transformPythonResponse sample_window 0 JNull (JObj sample_response)
         sample_file = Ok r
       ∧ dispatched (snd (ForensicsReport.performReverseSearch (sample_env r)
                            ForensicsReport.bing))
         = Some "https://forensics.example.org/api/v1/reverse/bing?image_id=7f3a9c&session_id=c0ffee0123456789".
Proof.
  destruct (transformPythonResponse sample_window 0 JNull (JObj sample_response)
              sample_file) as [r|e] eqn:H.
  - exists r. split; [reflexivity|].
    destruct (X3_reverse_search_after_report _ _ _ _ _ r (sample_env r)
                ForensicsReport.bing H eq_refl) as (_ & _ & ->).
    destruct (transform_ids _ _ _ _ _ _ H) as (Hi & _).
    unfold request_url. simpl. rewrite Hi. reflexivity.
  - vm_compute in H. discriminate H.
Defined.

End ReportIdentifiers.

(** ** Failures of the two requests *)

Section RequestFailures.

Ltac step :=
  unfold mbind, mret, M_bind, M_ret, Result_bind, Result_ret, lift, update, read,
    await_fetch, json;
  cbn [ok body status statusText negb fst snd
       setIsAnalyzing setResults setUploadedImage setSessionIdRef
       isAnalyzing results uploadedImage sessionIdRef];
  cbv beta iota zeta;
  cbn [ok body status statusText negb fst snd
       setIsAnalyzing setResults setUploadedImage setSessionIdRef
       isAnalyzing results uploadedImage sessionIdRef].

(** X4: when the image is ready and the request to the reverse-search
    endpoint fails (no answer, a status that is not OK, or a body that is
    not JSON), the call sends that one request, opens no window, and
    shows exactly one alert, for the engine asked for; and in every case
    [searchLoading] is null again at the end. *)
Theorem X4_reverse_search_failure (env : ForensicsReport.Env)
    (e : ForensicsReport.Engine) :
  session_ready env = true →
  request_failed env.(ForensicsReport.answer) = true →
  fst (ForensicsReport.performReverseSearch env e) = None
  ∧ opened (snd (ForensicsReport.performReverseSearch env e)) = []
  ∧ ∃ error,
      snd (ForensicsReport.performReverseSearch env e)
      = [ForensicsReport.Fetch (request_url env e);
         ForensicsReport.AlertBox (ForensicsReport.SearchFailed e error)].
Proof.
  unfold session_ready, request_failed, ForensicsReport.performReverseSearch,
    ForensicsReport.performReverseSearch_try, request_url.
  intros -> Hf. split; [done|].
  destruct (ForensicsReport.answer env) as [|[k status statusText b]]; simpl in *.
  - split; [done|]. by eexists.
  - destruct k; simpl in *.
    + destruct b as [data|]; [by rewrite bool_decide_eq_true in Hf|].
      split; [done|]. by eexists.
    + destruct b as [data|]; simpl; [|split; [done|]; by eexists].
      destruct (rd "detail" data); simpl; (split; [done|]); by eexists.
Qed.

Lemma X4_reverse_search_failure_witness :
  ∃ r, transformPythonResponse sample_window 0 JNull (JObj sample_response)
         sample_file = Ok r
       ∧ opened (snd (ForensicsReport.performReverseSearch (sample_env r)
                        ForensicsReport.google)) = [].
Proof.
  destruct (transformPythonResponse sample_window 0 JNull (JObj sample_response)
              sample_file) as [r|e] eqn:H.
  - exists r. split; [reflexivity|].
    apply (X4_reverse_search_failure (sample_env r) ForensicsReport.google);
      [|reflexivity].
    unfold session_ready. simpl. by rewrite (imageId_truthy _ _ _ _ _ _ H).
  - vm_compute in H. discriminate H.
Defined.



End RequestFailures.

(** ** What the application shows *)

Section Screens.

Lemma badge_safe_ok (v : JsVal) :
  badge_safe v → is_ok (App.session_badge v) = true.
Proof.
  unfold App.session_badge. intros [->|Hs]; [done|].
  destruct v; try discriminate Hs. by destruct (truthy _).
Qed.

Lemma session_after_safe (outcome : FetchOutcome) (previous : JsVal) :
  badge_safe previous → badge_safe (outcome_session outcome) →
  badge_safe (session_after outcome previous).
Proof.
  intros Hp Ho. destruct outcome as [|[[] status statusText [data|]]]; simpl in *; try done.
  by destruct (truthy (get "session_id" data)).
Qed.

Lemma act_safe (a : App.Action) (st : HookState) :
  badge_safe st.(sessionIdRef) → action_safe a →
  badge_safe (App.act a st).(sessionIdRef).
Proof.
  intros Hs Ha. destruct a as [window now outcome file|]; simpl in *; [|done].
  destruct (analyzeImage_spec window now outcome file st) as (_ & _ & -> & _).
  by apply session_after_safe.
Qed.



(** X7: the session badge of the header can always be rendered, through
    any sequence of uploads and resets, as long as the session
    identifiers that the back end sends are texts (or absent). *)
Theorem X7_session_badge_renders (actions : list App.Action) (st : HookState) :
  badge_safe st.(sessionIdRef) →
  Forall action_safe actions →
  is_ok (App.session_badge (hook_sessionId (App.run actions st))) = true.
Proof.
  intros Hs Ha. apply badge_safe_ok. unfold hook_sessionId, App.run.
  revert st Hs. induction Ha as [|a actions Ha _ IH]; intros st Hs; [done|].
  simpl. apply IH. by apply act_safe.
Qed.

Lemma X7_session_badge_renders_witness :
  is_ok (App.session_badge (hook_sessionId
    (App.run [App.Analyze sample_window 0 sample_ok_response sample_file; App.Reset;
              App.Analyze sample_window 5 Rejected sample_file]
       initialState))) = true.
Proof.
  apply X7_session_badge_renders.
  - left. reflexivity.
  - apply Forall_cons. split; [right; reflexivity|].
    apply Forall_cons. split; [exact I|].
    apply Forall_cons. split; [left; reflexivity|]. apply Forall_nil_2.
Defined.

(** X8: a [session_id] that is truthy but not a text (a number, say) is
    stored by the hook before its [substring] is called: the analysis
    ends in the [catch] block with a [TypeError] and no report, the hook
    returns that identifier from then on, and rendering the header's
    session badge throws. *)
Theorem X8_session_id_not_text window now (response : Response) (data : JsVal)
    (file : File.t) (st : HookState) :
  response.(ok) = true →
  response.(body) = Some data →
  truthy (get "session_id" data) = true →
  is_string (get "session_id" data) = false →
  let st' := fst (analyzeImage window now (Responded response) file st) in
  snd (analyzeImage window now (Responded response) file st) = Some TypeError
  ∧ st'.(results) = None
  ∧ hook_sessionId st' = get "session_id" data
  ∧ hook_sessionId (resetAnalysis st') = get "session_id" data
  ∧ App.session_badge (hook_sessionId st') = Throw TypeError.
Proof.
  destruct response as [k status statusText b]. simpl. intros -> -> Ht Hs.
  assert (Hn : nullish data = false) by by destruct data.
  assert (Hc : call_substring 8 (get "session_id" data) = Throw TypeError)
    by by destruct (get "session_id" data).
  assert (E : analyzeImage window now
                (Responded {| ok := true; status := status; statusText := statusText;
                              body := Some data |}) file st
              = ({| isAnalyzing := false; results := None; uploadedImage := Some file;
                    sessionIdRef := get "session_id" data |}, Some TypeError)).
  { unfold analyzeImage, analyzeImage_try.
    unfold mbind, mret, M_bind, M_ret, lift, update, read, await_fetch, json. simpl.
    rewrite !(rd_ok _ _ Hn). simpl. rewrite Ht. simpl. by rewrite Hc. }
  rewrite E. unfold hook_sessionId, App.session_badge. simpl. by rewrite Ht, Hc.
Qed.

Lemma X8_session_id_not_text_witness :
  App.session_badge
    (hook_sessionId
       (fst (analyzeImage sample_window 0 numeric_session_response sample_file
               initialState)))
  = Throw TypeError.
Proof.
  by apply (X8_session_id_not_text sample_window 0 _ (JObj {[ "session_id" := JInt 42 ]})).
Defined.

End Screens.

(** ** What the panels show of a report *)

Section PanelFacts.

Lemma transform_slots window now ref (d : JsVal) (file : File.t) r :
  transformPythonResponse window now ref d file = Ok r →
  let results := results_of d in
  metadataSlot (exifData_of results) (hasExifData_of results)
    (get "message" results) (get "suggestion" results) = Ok r.(metadata)
  ∧ tamperSlot results = Ok r.(tamper)
  ∧ aiSlot results = Ok r.(aiAnalysis)
  ∧ faceSlot results = Ok r.(faceAnalysis)
  ∧ fileInfoSlot (exifData_of results) (hasExifData_of results) d file
    = Ok r.(fileInfo).
Proof.
  intros H results. pose proof (transform_not_nullish _ _ _ _ _ _ H) as Hn. revert H.
  unfold transformPythonResponse. rewrite !(rd_ok _ d Hn). cbn [mbind Result_bind].
  fold (results_of d). fold results.
  pose proof (results_of_not_nullish d) as Hr. fold results in Hr.
  destruct (exif_of_ok results Hr) as [-> _]. cbn [mbind Result_bind].
  rewrite !(rd_ok _ results) by done. cbn [mbind Result_bind].
  destruct (metadataSlot _ _ _ _); [|done]. cbn [mbind Result_bind].
  destruct (tamperSlot _); [|done]. cbn [mbind Result_bind].
  destruct (aiSlot _); [|done]. cbn [mbind Result_bind].
  destruct (faceSlot _); [|done]. cbn [mbind Result_bind].
  destruct (fileInfoSlot _ _ _ _); [|done]. cbn [mbind Result_bind].
  intros [= <-]. by repeat split.
Qed.














End PanelFacts.

(** ** The file panel *)

Section FileInfoFacts.












End FileInfoFacts.

(** ** The metadata panel *)

Section MetadataFacts.




(** X15: the metadata of a report always has the ten properties of the
    object literal and no [gps]: the panel never shows its notice "No
    EXIF metadata found in this image" (nor the back end's message and
    suggestion inside it), and never shows the Location group or the map
    button. *)
Theorem X15_metadata_notice_never_shown (m : Metadata.t) :
  keys_length (MetadataPanel.data_of m) = 10
  ∧ MetadataPanel.notice_shown (MetadataPanel.data_of m) = Ok false
  ∧ MetadataPanel.location_shown (MetadataPanel.data_of m) = Ok false.
Proof. repeat split. Qed.






End MetadataFacts.

(** ** The controls of the preview *)

Section PreviewFacts.

Lemma Qmax_spec (a b : Q) :
  (a <= ImagePreview.Qmax a b)%Q ∧ (b <= ImagePreview.Qmax a b)%Q
  ∧ (ImagePreview.Qmax a b = a ∨ ImagePreview.Qmax a b = b).
Proof.
  unfold ImagePreview.Qmax. destruct (Qle_bool a b) eqn:E.
  - apply Qle_bool_iff in E. repeat split; [done|apply Qle_refl|by right].
  - assert (¬ (a <= b)%Q) as H by (rewrite <- Qle_bool_iff; congruence).
    apply Qnot_le_lt, Qlt_le_weak in H. repeat split; [apply Qle_refl|done|by left].
Qed.

Lemma Qmin_spec (a b : Q) :
  (ImagePreview.Qmin a b <= a)%Q ∧ (ImagePreview.Qmin a b <= b)%Q
  ∧ (ImagePreview.Qmin a b = a ∨ ImagePreview.Qmin a b = b).
Proof.
  unfold ImagePreview.Qmin. destruct (Qle_bool a b) eqn:E.
  - apply Qle_bool_iff in E. repeat split; [apply Qle_refl|done|by left].
  - assert (¬ (a <= b)%Q) as H by (rewrite <- Qle_bool_iff; congruence).
    apply Qnot_le_lt, Qlt_le_weak in H. repeat split; [done|apply Qle_refl|by right].
Qed.

Lemma click_in_range (c : ImagePreview.Click) (st : ImagePreview.State) :
  zoom_in_range st → zoom_in_range (ImagePreview.click c st).
Proof.
  unfold zoom_in_range. intros [Hl Hu]. destruct c; simpl; [| |done].
  - destruct (Qmax_spec (1 # 2) (ImagePreview.zoom st - (1 # 4))) as (H1 & _ & [E|E]);
      rewrite E in *; split; lra.
  - destruct (Qmin_spec 3 (ImagePreview.zoom st + (1 # 4))) as (H1 & _ & [E|E]);
      rewrite E in *; split; lra.
Qed.

Lemma click_rotation (c : ImagePreview.Click) (st : ImagePreview.State) :
  (ImagePreview.click c st).(ImagePreview.rotation)
  = (st.(ImagePreview.rotation) + 90 * rotations [c])%Z.
Proof. destruct c; simpl; lia. Qed.

(** X17: through any sequence of clicks on the three buttons of the
    preview the zoom factor stays between 0.5 and 3, and the rotation is
    90 degrees per click on the rotate button, counted without wrapping
    at 360. *)
Theorem X17_preview_controls (cs : list ImagePreview.Click) (st : ImagePreview.State) :
  zoom_in_range st →
  zoom_in_range (ImagePreview.clicks cs st)
  ∧ (ImagePreview.clicks cs st).(ImagePreview.rotation)
    = (st.(ImagePreview.rotation) + 90 * rotations cs)%Z.
Proof.
  unfold ImagePreview.clicks. revert st.
  induction cs as [|c cs IH]; intros st Hr; simpl.
  - split; [done|lia].
  - destruct (IH (ImagePreview.click c st) (click_in_range c st Hr)) as [Hz ->].
    split; [done|]. rewrite click_rotation. destruct c; simpl; lia.
Qed.

Lemma X17_preview_controls_witness :
  (ImagePreview.clicks
     [ImagePreview.Rotate; ImagePreview.Rotate; ImagePreview.ZoomIn;
      ImagePreview.Rotate; ImagePreview.Rotate] ImagePreview.initial)
    .(ImagePreview.rotation) = 360%Z.
Proof.
  apply (X17_preview_controls
           [ImagePreview.Rotate; ImagePreview.Rotate; ImagePreview.ZoomIn;
            ImagePreview.Rotate; ImagePreview.Rotate] ImagePreview.initial).
  split; discriminate.
Defined.

(** X18: zooming in and then out brings the zoom factor back when there
    was room for the step (at most 2.75); from 2.75 upwards zooming in
    stops at 3, and from 0.75 downwards zooming out stops at 0.5. *)
Theorem X18_zoom_steps (st : ImagePreview.State) :
  zoom_in_range st →
  let z := st.(ImagePreview.zoom) in
  ((z <= 11 # 4)%Q →
   ((ImagePreview.click ImagePreview.ZoomOut
       (ImagePreview.click ImagePreview.ZoomIn st)).(ImagePreview.zoom) == z)%Q)
  ∧ ((11 # 4 <= z)%Q →
     ((ImagePreview.click ImagePreview.ZoomIn st).(ImagePreview.zoom) == 3)%Q)
  ∧ ((z <= 3 # 4)%Q →
     ((ImagePreview.click ImagePreview.ZoomOut st).(ImagePreview.zoom) == 1 # 2)%Q).
Proof.
  intros [Hl Hu] z. fold z in Hl, Hu. simpl. fold z.
  split; [|split]; intros H.
  - destruct (Qmin_spec 3 (z + (1 # 4))) as (H1 & H2 & _).
    assert (E : (ImagePreview.Qmin 3 (z + (1 # 4)) == z + (1 # 4))%Q).
    { unfold ImagePreview.Qmin. destruct (Qle_bool 3 (z + (1 # 4))) eqn:E; [|reflexivity].
      apply Qle_bool_iff in E. lra. }
    unfold ImagePreview.Qmax at 1.
    destruct (Qle_bool _ _) eqn:E'; [lra|].
    assert (¬ (1 # 2 <= ImagePreview.Qmin 3 (z + (1 # 4)) - (1 # 4))%Q) as Hn
      by (rewrite <- Qle_bool_iff; congruence).
    lra.
  - unfold ImagePreview.Qmin. destruct (Qle_bool 3 (z + (1 # 4))) eqn:E; [reflexivity|].
    assert (¬ (3 <= z + (1 # 4))%Q) as Hn by (rewrite <- Qle_bool_iff; congruence).
    lra.
  - unfold ImagePreview.Qmax. destruct (Qle_bool (1 # 2) (z - (1 # 4))) eqn:E; [|reflexivity].
    apply Qle_bool_iff in E. lra.
Qed.

Lemma X18_zoom_steps_witness :
  ((ImagePreview.click ImagePreview.ZoomOut
      (ImagePreview.click ImagePreview.ZoomIn ImagePreview.initial))
     .(ImagePreview.zoom) == 1)%Q.
Proof.
  apply (X18_zoom_steps ImagePreview.initial); [split|]; discriminate.
Defined.

End PreviewFacts.

(** ** The host name written to the Vite configuration *)

Section HostnameFacts.





End HostnameFacts.

(** ** From the upload area to the screen *)

Section DropFacts.

(** X20: after a drop the area is no longer highlighted, and the error
    shown is the verdict on the first file dropped: the message of
    [validateFile] when it is rejected, none when it is handed on; the
    files after the first are never looked at, and a drop without files
    leaves the message of an earlier attempt in place. *)
Theorem X20_drop_feedback (files : option (list File.t)) (st : ImageUpload.State) :
  let st' := fst (ImageUpload.handleDrop files st) in
  st'.(ImageUpload.dragActive) = false
  ∧ (head (default [] files) = None →
     st'.(ImageUpload.error) = st.(ImageUpload.error)
     ∧ snd (ImageUpload.handleDrop files st) = None)
  ∧ (∀ file, head (default [] files) = Some file →
     st'.(ImageUpload.error) = ImageUpload.validateFile file
     ∧ snd (ImageUpload.handleDrop files st)
       = match ImageUpload.validateFile file with
         | Some _ => None
         | None => Some file
         end).
Proof.
  unfold ImageUpload.handleDrop.
  destruct files as [[|f fs]|]; simpl; try (repeat split; done).
  rewrite validateFile_is_error.
  destruct (ImageUpload.validateFile f) as [e|] eqn:E; simpl.
  - split; [done|]. split; [done|]. intros file [= <-]. by rewrite E.
  - split; [done|]. split; [done|]. intros file [= <-]. by rewrite E.
Qed.

Lemma X20_drop_feedback_witness :
  (fst (ImageUpload.handleDrop
          (Some [{| File.name := "notes.pdf"; File.size := 1000;
                    File.type := "application/pdf" |}; sample_file])
          idle_upload)).(ImageUpload.error)
  = Some "Please upload a valid image file".
Proof.
  destruct (X20_drop_feedback
              (Some [{| File.name := "notes.pdf"; File.size := 1000;
                        File.type := "application/pdf" |}; sample_file])
              idle_upload) as (_ & _ & H).
  destruct (H _ eq_refl) as [-> _]. reflexivity.
Defined.



End DropFacts.

(** ** The session across uploads, and an answered reverse search *)

Section SessionFacts.

Lemma session_after_truthy (outcome : FetchOutcome) (previous : JsVal) :
  truthy previous = true → truthy (session_after outcome previous) = true.
Proof.
  intros Hp. destruct outcome as [|[[] status statusText [data|]]]; simpl; try done.
  by destruct (truthy (get "session_id" data)) eqn:E.
Qed.

(** X22: once the hook holds a session identifier, no sequence of
    uploads and resets removes it: failed requests, answers without a
    [session_id] and resets keep the one held, and a new one replaces it
    only when it is truthy. *)
Theorem X22_session_never_lost (actions : list App.Action) (st : HookState) :
  truthy (hook_sessionId st) = true →
  truthy (hook_sessionId (App.run actions st)) = true.
Proof.
  unfold hook_sessionId, App.run. revert st.
  induction actions as [|a actions IH]; intros st Hs; [done|].
  simpl. apply IH. destruct a as [window now outcome file|]; simpl; [|done].
  destruct (analyzeImage_spec window now outcome file st) as (_ & _ & -> & _).
  by apply session_after_truthy.
Qed.

Lemma X22_session_never_lost_witness :
  truthy (hook_sessionId
            (App.run [App.Reset; App.Analyze sample_window 5 Rejected sample_file;
                      App.Reset]
               (fst (analyzeImage sample_window 0 sample_ok_response sample_file
                       initialState)))) = true.
Proof.
  apply X22_session_never_lost.
  destruct (analyzeImage_spec sample_window 0 sample_ok_response sample_file initialState)
    as (_ & _ & H & _).
  unfold hook_sessionId. rewrite H. reflexivity.
Defined.



End SessionFacts.

(** ** The faces of a report *)

Section FaceFacts.






End FaceFacts.

(** ** The indicator and the headline of the AI panel *)

Section IndicatorFacts.

(** X25: when the AI analyzer reports no error, the single indicator of
    the report and the headline of the AI panel never contradict each
    other: the indicator reads "AI generated content detected" exactly
    when the headline is one of the three "AI-generated" texts, and
    "Natural image detected" exactly when the headline is "Likely
    authentic photograph". *)
Theorem X25_ai_indicator_agrees window now ref (d : JsVal) (file : File.t) r :
  transformPythonResponse window now ref d file = Ok r →
  truthy (opt "error" (ai_entry (results_of d))) = false →
  let data := r.(aiAnalysis) in
  let headline := AIPanel.getConfidenceText data.(AiAnalysis.confidence)
                    data.(AiAnalysis.isAiGenerated) in
  (data.(AiAnalysis.indicators) = ["AI generated content detected"]
   ∧ headline ∈ ["High confidence AI-generated"; "Possibly AI-generated";
                 "Low confidence AI-generated"])
  ∨ (data.(AiAnalysis.indicators) = ["Natural image detected"]
     ∧ headline = "Likely authentic photograph").
Proof.
  intros (_ & _ & Ha & _)%transform_slots He. revert Ha.
  unfold aiSlot. rewrite !path3_ok by apply results_of_not_nullish.
  cbn [mbind Result_bind]. fold (ai_entry (results_of d)). rewrite He.
  cbn [mbind Result_bind].
  destruct (call_toFixed 3 _) as [fixed|e]; cbn [mbind Result_bind]; [|done].
  intros [= <-]. simpl. unfold AIPanel.getConfidenceText, or_else.
  destruct (truthy (opt "is_ai_generated" (ai_entry (results_of d)))) eqn:Hf.
  - left. split; [done|]. rewrite Hf.
    rewrite !elem_of_cons.
    destruct (gt_lit _ (7 # 10)); [by left|].
    destruct (gt_lit _ (4 # 10)); [by right; left|by right; right; left].
  - right. done.
Qed.

Lemma X25_ai_indicator_agrees_witness :
  ∃ r, transformPythonResponse sample_window 0 JNull response_with_percentages
         sample_file = Ok r
       ∧ r.(aiAnalysis).(AiAnalysis.indicators) = ["AI generated content detected"]
       ∧ AIPanel.getConfidenceText r.(aiAnalysis).(AiAnalysis.confidence)
           r.(aiAnalysis).(AiAnalysis.isAiGenerated)
         = "High confidence AI-generated".
Proof.
  destruct (transformPythonResponse sample_window 0 JNull response_with_percentages
              sample_file) as [r|e] eqn:H; [|vm_compute in H; discriminate H].
  exists r. split; [reflexivity|].
  destruct (X25_ai_indicator_agrees _ _ _ _ _ _ H eq_refl) as [[Hi _]|[Hi _]].
  - split; [exact Hi|]. vm_compute in H. by injection H as <-.
  - vm_compute in H. injection H as <-. discriminate Hi.
Defined.

End IndicatorFacts.
